(** * The coordinate and dimension data model of [src/data_model.py]

    The module describes the axes and coordinate variables of a gridded
    dataset following the CF conventions: an enumeration of axis kinds, a
    family of coordinate dataclasses, the [DMDimensions] aggregate that
    validates a tuple of dimension coordinates and a set of scalar
    coordinates into axis lookup tables, and [DMCoordinateBounds] with its
    two factories.

    Python objects that are only read are embedded as values; the two
    factories, which allocate objects and assign to [coord.bounds], run on an
    explicit heap of objects addressed by references. *)

From stdpp Require Import base option decidable list strings gmap fin_maps.
From Stdlib Require Import ZArith.

Open Scope string_scope.
Open Scope nat_scope.
Open Scope list_scope.

Set Warnings "-register-all".

(** ** Axis kinds (lines 11-17) *)

Module DMAxis.
(** [util.MDTFEnum('DMAxis', 'X Y Z T BOUNDS OTHER')].
    Modelled from the spec: [util.MDTFEnum] is defined outside this file;
    it is taken to build the "closed enumeration of axis roles", with the
    members named in the string. *)
Inductive t := X | Y | Z | T | BOUNDS | OTHER.

#[global] Instance eq_dec : EqDecision t.
Proof. solve_decision. Defined.

(** The [name] attribute of an enumeration member. *)
Definition name (a : t) : string :=
  match a with
  | X => "X" | Y => "Y" | Z => "Z" | T => "T"
  | BOUNDS => "BOUNDS" | OTHER => "OTHER"
  end.

(** [DMAxis.spatiotemporal_names = ('X', 'Y', 'Z', 'T')] *)
Definition spatiotemporal_names : list string := ["X"; "Y"; "Z"; "T"].
End DMAxis.

(** ** Classes *)

Inductive class :=
  | DMCoordinate_class
  | DMLongitudeCoordinate_class
  | DMLatitudeCoordinate_class
  | DMVerticalCoordinate_class
  | DMParametricVerticalCoordinate_class
  | DMTimeCoordinate_class
  | DMBoundsDimension_class
  | DMScalarCoordinateMixin_class
  | DMScalarCoordinate_class
  | DMScalarVerticalCoordinate_class
  | DMDimensions_class
  | DMAuxiliaryCoordinate_class
  | DMCoordinateBounds_class
  | DMVariable_class.

#[global] Instance class_eq_dec : EqDecision class.
Proof. solve_decision. Defined.

(** The method resolution order of a class, from its [class] statement
    ([object] left out). *)
Definition mro (c : class) : list class :=
  match c with
  | DMParametricVerticalCoordinate_class =>
      [DMParametricVerticalCoordinate_class; DMVerticalCoordinate_class]
  | DMScalarCoordinate_class =>
      [DMScalarCoordinate_class; DMCoordinate_class;
       DMScalarCoordinateMixin_class]
  | DMScalarVerticalCoordinate_class =>
      [DMScalarVerticalCoordinate_class; DMVerticalCoordinate_class;
       DMScalarCoordinateMixin_class]
  | DMAuxiliaryCoordinate_class =>
      [DMAuxiliaryCoordinate_class; DMDimensions_class]
  | DMCoordinateBounds_class =>
      [DMCoordinateBounds_class; DMAuxiliaryCoordinate_class;
       DMDimensions_class]
  | DMVariable_class => [DMVariable_class; DMDimensions_class]
  | _ => [c]
  end.

Definition issubclass (c base : class) : bool := bool_decide (base ∈ mro c).

(** ** Exceptions

    Every failure in the module is a raised exception.  A [ValueError]
    carries the data its f-string message is formatted from; [A] is the type
    of what stands for a coordinate in the message (a coordinate value, or a
    reference to one). *)

Inductive message (A : Type) :=
  (** "Duplicate definition of {axis} axis:{str(c)}, {str(temp_d[axis])}" *)
  | Duplicate_definition (axis : string) (c prev : A)
  (** "Attempted to create DMCoordinateBounds {name} with scalar
      coordinates: {scalar_coords}." *)
  | With_scalar_coordinates (name : string) (scalar_coords : list A)
  (** "Attempted to create DMCoordinateBounds {name} with improper
      dimensions: {dims}." *)
  | Improper_dimensions (name : string) (dims : list A)
  (** "Tried to create instance of {cls} from different DMCoordinate type
      {coord}." *)
  | Different_type (cls : class) (coord : A)
  (** a bare [raise ValueError] *)
  | No_message.
Arguments Duplicate_definition {A}.
Arguments With_scalar_coordinates {A}.
Arguments Improper_dimensions {A}.
Arguments Different_type {A}.
Arguments No_message {A}.

Inductive exn (A : Type) :=
  | ValueError (m : message A)
  | AssertionError
  | AttributeError (attr : string)
  | KeyError (key : string)
  | TypeError (what : string)
  | RecursionError
  (** not a Python exception: the heap of the model holds no object at the
      reference that was followed *)
  | InvalidReference.
Arguments ValueError {A}.
Arguments AssertionError {A}.
Arguments AttributeError {A}.
Arguments KeyError {A}.
Arguments TypeError {A}.
Arguments RecursionError {A}.
Arguments InvalidReference {A}.

Inductive result (E R : Type) :=
  | Ok (r : R)
  | Raise (e : E).
Arguments Ok {E R}.
Arguments Raise {E R}.

#[global] Instance result_ret {E} : MRet (result E) := λ R r, Ok r.

#[global] Instance result_bind {E} : MBind (result E) := λ R S k m,
  match m with
  | Ok r => k r
  | Raise e => Raise e
  end.

(** [d[key]] on a dict: [KeyError] when the key is absent. *)
Definition getitem {E V} (d : gmap string V) (key : string)
    : result (exn E) V :=
  match d !! key with
  | Some v => Ok v
  | None => Raise (KeyError key)
  end.

(** ** The Dimensions aggregate (lines 188-237)

    [__post_init__] reads nothing of a coordinate but [c.axis] (and formats
    it into the error message), so the aggregate is embedded once, for any
    type [A] of coordinates with an [axis] attribute: coordinate values, or
    references to coordinate objects on a heap.  The set [scalar_coords] is
    given by the list of its members in iteration order; a dict with string
    keys is a [gmap string]; the Python value [None] in a slot is Rocq's
    [None]. *)

Module DMDimensions.
Section WithCoordinates.
Context {A : Type} (axis : A → DMAxis.t).

Record t := mk {
  dims : list A;
  scalar_coords : list A;
  axes : gmap string (option A);
  phys_axes : gmap string (option A);
}.

(** [getattr(c.axis, 'name', '')] *)
Definition axis_name (c : A) : string := DMAxis.name (axis c).

(** Lines 200-206: the loop over [itertools.chain(dims, scalar_coords)],
    started from the dict [temp_d]. *)
Fixpoint check_duplicates (temp_d : gmap string A) (chain : list A)
    : result (exn A) (gmap string A) :=
  match chain with
  | [] => Ok temp_d
  | c :: chain' =>
      let axis := axis_name c in
      if bool_decide (axis ≠ "OTHER") && bool_decide (is_Some (temp_d !! axis))
      then
        prev ← getitem temp_d axis;
        Raise (ValueError (Duplicate_definition axis c prev))
      else check_duplicates (<[axis := c]> temp_d) chain'
  end.

(** Lines 209-212 and 214-217: one pass of
    [if axis in DMAxis.spatiotemporal_names: d[axis] = c]. *)
Definition assign_axis (d : gmap string (option A)) (c : A)
    : gmap string (option A) :=
  let axis := axis_name c in
  if bool_decide (axis ∈ DMAxis.spatiotemporal_names)
  then <[axis := Some c]> d
  else d.

Definition assign_axes (d : gmap string (option A)) (cs : list A)
    : gmap string (option A) :=
  foldl assign_axis d cs.

(** Line 208: [dict((x, None) for x in DMAxis.spatiotemporal_names)] *)
Definition empty_axes : gmap string (option A) :=
  list_to_map ((λ x, (x, None)) <$> DMAxis.spatiotemporal_names).

(** Lines 198-217.  [self] comes from the generated [__init__] with [dims]
    and [scalar_coords] stored; the result is [self] after the assignments
    to [self.axes] and [self.phys_axes]. *)
Definition __post_init__ (self : t) : result (exn A) t :=
  _ ← check_duplicates ∅ (dims self ++ scalar_coords self);
  let axes := assign_axes empty_axes (dims self) in
  let phys_axes := assign_axes axes (scalar_coords self) in
  Ok (mk (dims self) (scalar_coords self) axes phys_axes).

(** The [__init__] that the dataclass decorator generates stores the two
    init fields and runs [__post_init__]; [axes] and [phys_axes] are
    declared with [init=False] and hold nothing before. *)
Definition init (dims scalar_coords : list A) : result (exn A) t :=
  __post_init__ (mk dims scalar_coords ∅ ∅).

(** The properties [X], [Y], [Z], [T] (lines 219-233). *)
Definition X (self : t) : result (exn A) (option A) := getitem (axes self) "X".
Definition Y (self : t) : result (exn A) (option A) := getitem (axes self) "Y".
Definition Z (self : t) : result (exn A) (option A) := getitem (axes self) "Z".
Definition T (self : t) : result (exn A) (option A) := getitem (axes self) "T".
End WithCoordinates.
Arguments t : clear implicits.
End DMDimensions.

(** ** Values held by attributes *)

Module datelabel.
(** Modelled from the spec: [datelabel.AbstractDateRange], an "opaque
    comparable date-range value", with [datelabel.FXDateRange] its
    "distinguished sentinel 'fixed/no-time' range value".  A range other
    than the sentinel is given by its two end points, and [==] on ranges is
    equality of these values. *)
Inductive AbstractDateRange := FXDateRange | DateRange (start stop : Z).

(** Modelled from the spec: [datelabel.AbstractDateFrequency], an "opaque
    date-frequency value". *)
Inductive AbstractDateFrequency := DateFrequency (quantity : Z) (unit : string).

#[global] Instance range_eq_dec : EqDecision AbstractDateRange.
Proof. solve_decision. Defined.
#[global] Instance frequency_eq_dec : EqDecision AbstractDateFrequency.
Proof. solve_decision. Defined.
End datelabel.
Export datelabel.

(** [typing.Union[int, float]]: an integer, or the finite binary float
    [m * 2^e]. *)
Inductive number := PyInt (z : Z) | PyFloat (m e : Z).

#[global] Instance number_eq_dec : EqDecision number.
Proof. solve_decision. Defined.

(** [==] on numbers compares the numeric values, across the two types. *)
Definition number_eqb (a b : number) : bool :=
  let mantissa n := match n with PyInt z => z | PyFloat m _ => m end in
  let exponent n := match n with PyInt _ => 0%Z | PyFloat _ e => e end in
  let e := Z.min (exponent a) (exponent b) in
  bool_decide ((mantissa a * 2 ^ (exponent a - e))%Z
               = (mantissa b * 2 ^ (exponent b - e))%Z).

(** References to objects on the heap. *)
Abbreviation loc := positive.

(** What an attribute, or an entry of the dict built by
    [dataclasses.asdict], can hold.  [PRef] is a reference to a dataclass
    instance.  [PSet ls] is a set whose members are the objects at [ls], and
    [PSetCopy ls] the set that [copy.deepcopy] returns for it, whose members
    are fresh copies of these objects. *)
Inductive pyval :=
  | PNone
  | PStr (s : string)
  | PNum (n : number)
  | PAxis (a : DMAxis.t)
  | PRange (r : AbstractDateRange)
  | PFrequency (f : AbstractDateFrequency)
  | PRef (l : loc)
  | PTuple (vs : list pyval)
  | PDict (kvs : list (string * pyval))
  | PSet (ls : list loc)
  | PSetCopy (ls : list loc).

#[global] Instance pyval_eq_dec : EqDecision pyval.
Proof.
  refine (fix go (v w : pyval) {struct v} : Decision (v = w) :=
    match v, w with
    | PNone, PNone => left eq_refl
    | PStr s, PStr s' => cast_if (decide (s = s'))
    | PNum n, PNum n' => cast_if (decide (n = n'))
    | PAxis a, PAxis a' => cast_if (decide (a = a'))
    | PRange r, PRange r' => cast_if (decide (r = r'))
    | PFrequency f, PFrequency f' => cast_if (decide (f = f'))
    | PRef l, PRef l' => cast_if (decide (l = l'))
    | PTuple vs, PTuple ws =>
        cast_if ((fix gos (vs ws : list pyval) {struct vs}
                    : Decision (vs = ws) :=
                  match vs, ws with
                  | [], [] => left eq_refl
                  | v :: vs, w :: ws => cast_if_and (go v w) (gos vs ws)
                  | _, _ => right _
                  end) vs ws)
    | PDict kvs, PDict kws =>
        cast_if ((fix gos (kvs kws : list (string * pyval)) {struct kvs}
                    : Decision (kvs = kws) :=
                  match kvs, kws with
                  | [], [] => left eq_refl
                  | (k, v) :: kvs, (k', w) :: kws =>
                      cast_if_and3 (decide (k = k')) (go v w) (gos kvs kws)
                  | _, _ => right _
                  end) kvs kws)
    | PSet ls, PSet ls' => cast_if (decide (ls = ls'))
    | PSetCopy ls, PSetCopy ls' => cast_if (decide (ls = ls'))
    | _, _ => right _
    end); clear go; try clear gos; congruence.
Defined.

Definition of_option {V} (f : V → pyval) (o : option V) : pyval :=
  match o with
  | Some v => f v
  | None => PNone
  end.

(** ** The coordinate dataclasses (lines 19-107, 148-171)

    One record per dataclass, holding its dataclass fields in the order
    [dataclasses.fields] lists them (fields of the bases first); attributes
    assigned in the class body without an annotation are class attributes,
    the same for every instance.  [fields] pairs each field name with the
    value of the attribute. *)

Module DMCoordinate.
Record t := mk {
  name : string;
  standard_name : string;
  units : string;
  axis : DMAxis.t;
  bounds : pyval;
}.
Definition fields (c : t) : list (string * pyval) :=
  [("name", PStr (name c)); ("standard_name", PStr (standard_name c));
   ("units", PStr (units c)); ("axis", PAxis (axis c)); ("bounds", bounds c)].
Definition set_bounds (c : t) (b : pyval) : t :=
  mk (name c) (standard_name c) (units c) (axis c) b.
End DMCoordinate.

Module DMLongitudeCoordinate.
Record t := mk { name : string; bounds : pyval }.
Definition standard_name (_ : t) : string := "longitude".
Definition units (_ : t) : string := "degrees_E".
Definition axis (_ : t) : DMAxis.t := DMAxis.X.
Definition fields (c : t) : list (string * pyval) :=
  [("name", PStr (name c)); ("bounds", bounds c)].
Definition set_bounds (c : t) (b : pyval) : t := mk (name c) b.
End DMLongitudeCoordinate.

Module DMLatitudeCoordinate.
Record t := mk { name : string; bounds : pyval }.
Definition standard_name (_ : t) : string := "latitude".
Definition units (_ : t) : string := "degrees_N".
Definition axis (_ : t) : DMAxis.t := DMAxis.Y.
Definition fields (c : t) : list (string * pyval) :=
  [("name", PStr (name c)); ("bounds", bounds c)].
Definition set_bounds (c : t) (b : pyval) : t := mk (name c) b.
End DMLatitudeCoordinate.

Module DMVerticalCoordinate.
Record t := mk {
  name : string;
  standard_name : string;
  units : string;
  positive : string;
  bounds : pyval;
}.
Definition axis (_ : t) : DMAxis.t := DMAxis.Z.
Definition fields (c : t) : list (string * pyval) :=
  [("name", PStr (name c)); ("standard_name", PStr (standard_name c));
   ("units", PStr (units c)); ("positive", PStr (positive c));
   ("bounds", bounds c)].
Definition set_bounds (c : t) (b : pyval) : t :=
  mk (name c) (standard_name c) (units c) (positive c) b.
End DMVerticalCoordinate.

Module DMParametricVerticalCoordinate.
Record t := mk {
  name : string;
  standard_name : string;
  units : string;
  positive : string;
  bounds : pyval;
  computed_standard_name : string;
  long_name : string;
  formula_terms : option string;
}.
Definition axis (_ : t) : DMAxis.t := DMAxis.Z.
Definition fields (c : t) : list (string * pyval) :=
  [("name", PStr (name c)); ("standard_name", PStr (standard_name c));
   ("units", PStr (units c)); ("positive", PStr (positive c));
   ("bounds", bounds c);
   ("computed_standard_name", PStr (computed_standard_name c));
   ("long_name", PStr (long_name c));
   ("formula_terms", of_option PStr (formula_terms c))].
Definition set_bounds (c : t) (b : pyval) : t :=
  mk (name c) (standard_name c) (units c) (positive c) b
     (computed_standard_name c) (long_name c) (formula_terms c).
End DMParametricVerticalCoordinate.

Module DMTimeCoordinate.
Record t := mk {
  name : string;
  units : string;
  calendar : string;
  range : option AbstractDateRange;
  frequency : option AbstractDateFrequency;
  bounds : pyval;
}.
Definition standard_name (_ : t) : string := "time".
Definition axis (_ : t) : DMAxis.t := DMAxis.T.
Definition fields (c : t) : list (string * pyval) :=
  [("name", PStr (name c)); ("units", PStr (units c));
   ("calendar", PStr (calendar c)); ("range", of_option PRange (range c));
   ("frequency", of_option PFrequency (frequency c)); ("bounds", bounds c)].
Definition set_bounds (c : t) (b : pyval) : t :=
  mk (name c) (units c) (calendar c) (range c) (frequency c) b.

(** Lines 87-94: [self.range == datelabel.FXDateRange] *)
Definition is_static (self : t) : bool :=
  bool_decide (range self = Some FXDateRange).

(** [dataclasses.replace(self, range=new_range)] *)
Definition replace_range (self : t) (new_range : option AbstractDateRange) : t :=
  mk (name self) (units self) (calendar self) new_range (frequency self)
     (bounds self).
End DMTimeCoordinate.

Module DMBoundsDimension.
(** [name] is the one dataclass field.  [bounds = None] is a class
    attribute; an assignment [c.bounds = v] to an instance stores an
    instance attribute that hides it, which is what the slot [bounds]
    holds: [PNone] for every instance the constructor returns. *)
Record t := mk { name : string; bounds : pyval }.
Definition standard_name (_ : t) : string := "bounds".
Definition units (_ : t) : string := "1".
Definition axis (_ : t) : DMAxis.t := DMAxis.BOUNDS.
Definition fields (c : t) : list (string * pyval) := [("name", PStr (name c))].
Definition set_bounds (c : t) (b : pyval) : t := mk (name c) b.
(** [DMBoundsDimension(name=n)] *)
Definition init (n : string) : t := mk n PNone.
End DMBoundsDimension.

Module DMScalarCoordinate.
(** bases [DMCoordinate], [DMScalarCoordinateMixin] *)
Record t := mk {
  value : option number;
  name : string;
  standard_name : string;
  units : string;
  axis : DMAxis.t;
  bounds : pyval;
}.
Definition fields (c : t) : list (string * pyval) :=
  [("value", of_option PNum (value c));
   ("name", PStr (name c)); ("standard_name", PStr (standard_name c));
   ("units", PStr (units c)); ("axis", PAxis (axis c)); ("bounds", bounds c)].
Definition set_bounds (c : t) (b : pyval) : t :=
  mk (value c) (name c) (standard_name c) (units c) (axis c) b.
End DMScalarCoordinate.

Module DMScalarVerticalCoordinate.
(** bases [DMVerticalCoordinate], [DMScalarCoordinateMixin] *)
Record t := mk {
  value : option number;
  name : string;
  standard_name : string;
  units : string;
  positive : string;
  bounds : pyval;
}.
Definition axis (_ : t) : DMAxis.t := DMAxis.Z.
Definition fields (c : t) : list (string * pyval) :=
  [("value", of_option PNum (value c));
   ("name", PStr (name c)); ("standard_name", PStr (standard_name c));
   ("units", PStr (units c)); ("positive", PStr (positive c));
   ("bounds", bounds c)].
Definition set_bounds (c : t) (b : pyval) : t :=
  mk (value c) (name c) (standard_name c) (units c) (positive c) b.
End DMScalarVerticalCoordinate.

(** Any coordinate: the tag is the class of the instance. *)
Inductive coordinate :=
  | Coordinate (c : DMCoordinate.t)
  | Longitude (c : DMLongitudeCoordinate.t)
  | Latitude (c : DMLatitudeCoordinate.t)
  | Vertical (c : DMVerticalCoordinate.t)
  | ParametricVertical (c : DMParametricVerticalCoordinate.t)
  | Time (c : DMTimeCoordinate.t)
  | BoundsDimension (c : DMBoundsDimension.t)
  | ScalarCoordinate (c : DMScalarCoordinate.t)
  | ScalarVertical (c : DMScalarVerticalCoordinate.t).

(** Lines 109-146 and 173-186: the interface of attributes that every
    registered class provides. *)
Class AbstractDMCoordinate (C : Type) := {
  name : C → string;
  standard_name : C → string;
  units : C → string;
  axis : C → DMAxis.t;
  bounds : C → pyval;
}.

Class AbstractDMScalarCoordinate (C : Type) := {
  scalar_coordinate :: AbstractDMCoordinate C;
  value : C → option number;
}.

#[global] Instance register_DMCoordinate : AbstractDMCoordinate DMCoordinate.t :=
  Build_AbstractDMCoordinate _ DMCoordinate.name DMCoordinate.standard_name
    DMCoordinate.units DMCoordinate.axis DMCoordinate.bounds.
#[global] Instance register_DMLongitudeCoordinate
    : AbstractDMCoordinate DMLongitudeCoordinate.t :=
  Build_AbstractDMCoordinate _ DMLongitudeCoordinate.name
    DMLongitudeCoordinate.standard_name DMLongitudeCoordinate.units
    DMLongitudeCoordinate.axis DMLongitudeCoordinate.bounds.
#[global] Instance register_DMLatitudeCoordinate
    : AbstractDMCoordinate DMLatitudeCoordinate.t :=
  Build_AbstractDMCoordinate _ DMLatitudeCoordinate.name
    DMLatitudeCoordinate.standard_name DMLatitudeCoordinate.units
    DMLatitudeCoordinate.axis DMLatitudeCoordinate.bounds.
#[global] Instance register_DMVerticalCoordinate
    : AbstractDMCoordinate DMVerticalCoordinate.t :=
  Build_AbstractDMCoordinate _ DMVerticalCoordinate.name
    DMVerticalCoordinate.standard_name DMVerticalCoordinate.units
    DMVerticalCoordinate.axis DMVerticalCoordinate.bounds.
#[global] Instance register_DMParametricVerticalCoordinate
    : AbstractDMCoordinate DMParametricVerticalCoordinate.t :=
  Build_AbstractDMCoordinate _ DMParametricVerticalCoordinate.name
    DMParametricVerticalCoordinate.standard_name
    DMParametricVerticalCoordinate.units DMParametricVerticalCoordinate.axis
    DMParametricVerticalCoordinate.bounds.
#[global] Instance register_DMTimeCoordinate
    : AbstractDMCoordinate DMTimeCoordinate.t :=
  Build_AbstractDMCoordinate _ DMTimeCoordinate.name
    DMTimeCoordinate.standard_name DMTimeCoordinate.units
    DMTimeCoordinate.axis DMTimeCoordinate.bounds.
#[global] Instance register_DMBoundsDimension
    : AbstractDMCoordinate DMBoundsDimension.t :=
  Build_AbstractDMCoordinate _ DMBoundsDimension.name
    DMBoundsDimension.standard_name DMBoundsDimension.units
    DMBoundsDimension.axis DMBoundsDimension.bounds.
#[global] Instance register_DMScalarCoordinate
    : AbstractDMScalarCoordinate DMScalarCoordinate.t :=
  Build_AbstractDMScalarCoordinate _
    (Build_AbstractDMCoordinate _ DMScalarCoordinate.name
       DMScalarCoordinate.standard_name DMScalarCoordinate.units
       DMScalarCoordinate.axis DMScalarCoordinate.bounds)
    DMScalarCoordinate.value.
#[global] Instance register_DMScalarVerticalCoordinate
    : AbstractDMScalarCoordinate DMScalarVerticalCoordinate.t :=
  Build_AbstractDMScalarCoordinate _
    (Build_AbstractDMCoordinate _ DMScalarVerticalCoordinate.name
       DMScalarVerticalCoordinate.standard_name DMScalarVerticalCoordinate.units
       DMScalarVerticalCoordinate.axis DMScalarVerticalCoordinate.bounds)
    DMScalarVerticalCoordinate.value.

(** Attribute access on a coordinate of any class goes through the
    interface of its class. *)
Definition on_coordinate {R} (f : ∀ C, AbstractDMCoordinate C → C → R)
    (c : coordinate) : R :=
  match c with
  | Coordinate c => f _ _ c
  | Longitude c => f _ _ c
  | Latitude c => f _ _ c
  | Vertical c => f _ _ c
  | ParametricVertical c => f _ _ c
  | Time c => f _ _ c
  | BoundsDimension c => f _ _ c
  | ScalarCoordinate c => f _ _ c
  | ScalarVertical c => f _ _ c
  end.

#[global] Instance coordinate_interface : AbstractDMCoordinate coordinate :=
  Build_AbstractDMCoordinate _
    (on_coordinate (@name)) (on_coordinate (@standard_name))
    (on_coordinate (@units)) (on_coordinate (@axis)) (on_coordinate (@bounds)).

(** [dataclasses.fields] of the instance, with the attribute values. *)
Definition coordinate_fields (c : coordinate) : list (string * pyval) :=
  match c with
  | Coordinate c => DMCoordinate.fields c
  | Longitude c => DMLongitudeCoordinate.fields c
  | Latitude c => DMLatitudeCoordinate.fields c
  | Vertical c => DMVerticalCoordinate.fields c
  | ParametricVertical c => DMParametricVerticalCoordinate.fields c
  | Time c => DMTimeCoordinate.fields c
  | BoundsDimension c => DMBoundsDimension.fields c
  | ScalarCoordinate c => DMScalarCoordinate.fields c
  | ScalarVertical c => DMScalarVerticalCoordinate.fields c
  end.

(** The assignment [c.bounds = b]. *)
Definition set_bounds (c : coordinate) (b : pyval) : coordinate :=
  match c with
  | Coordinate c => Coordinate (DMCoordinate.set_bounds c b)
  | Longitude c => Longitude (DMLongitudeCoordinate.set_bounds c b)
  | Latitude c => Latitude (DMLatitudeCoordinate.set_bounds c b)
  | Vertical c => Vertical (DMVerticalCoordinate.set_bounds c b)
  | ParametricVertical c =>
      ParametricVertical (DMParametricVerticalCoordinate.set_bounds c b)
  | Time c => Time (DMTimeCoordinate.set_bounds c b)
  | BoundsDimension c => BoundsDimension (DMBoundsDimension.set_bounds c b)
  | ScalarCoordinate c => ScalarCoordinate (DMScalarCoordinate.set_bounds c b)
  | ScalarVertical c =>
      ScalarVertical (DMScalarVerticalCoordinate.set_bounds c b)
  end.

(** [c.__class__] *)
Definition coordinate_class (c : coordinate) : class :=
  match c with
  | Coordinate _ => DMCoordinate_class
  | Longitude _ => DMLongitudeCoordinate_class
  | Latitude _ => DMLatitudeCoordinate_class
  | Vertical _ => DMVerticalCoordinate_class
  | ParametricVertical _ => DMParametricVerticalCoordinate_class
  | Time _ => DMTimeCoordinate_class
  | BoundsDimension _ => DMBoundsDimension_class
  | ScalarCoordinate _ => DMScalarCoordinate_class
  | ScalarVertical _ => DMScalarVerticalCoordinate_class
  end.

(** ** Equality of coordinates

    Modelled from the spec: the decorator [util.mdtf_dataclass] is defined
    outside this file, and is taken to generate what [dataclasses.dataclass]
    generates, an equality that is "structural, field-by-field", for
    instances whose attributes can be assigned.  That [__eq__] compares the
    tuples of the fields declared with [compare=True] when both operands have
    the same class, and is [NotImplemented] otherwise, which makes [==] false
    on two instances of different classes. *)

(** Strings, numbers, axis kinds, ranges, frequencies and [None], as
    opposed to references and containers. *)
Definition is_atom (v : pyval) : bool :=
  match v with
  | PRef _ | PTuple _ | PDict _ | PSet _ | PSetCopy _ => false
  | _ => true
  end.

Section Equality.
(** The value of [v == w] for two references, dicts, tuples or sets that
    are not the same in the model: [DMCoordinateBounds.__eq__] and the
    comparison of containers follow references through the heap, and are
    left open. *)
Variable distinct_eq : pyval → pyval → bool.

(** Comparison of two tuple elements, [v is w or v == w]. *)
Definition py_eq (v w : pyval) : bool :=
  bool_decide (v = w) ||
  match v, w with
  | PNum a, PNum b => number_eqb a b
  | _, _ => negb (is_atom v) && negb (is_atom w) && distinct_eq v w
  end.

Fixpoint tuple_eq (vs ws : list pyval) : bool :=
  match vs, ws with
  | [], [] => true
  | v :: vs', w :: ws' => py_eq v w && tuple_eq vs' ws'
  | _, _ => false
  end.

(** The fields that take part in comparison: all but [formula_terms],
    declared with [compare=False] (line 71). *)
Definition compare_fields (c : coordinate) : list (string * pyval) :=
  match c with
  | ParametricVertical _ =>
      filter (λ kv, kv.1 ≠ "formula_terms") (coordinate_fields c)
  | _ => coordinate_fields c
  end.

(** [a == b] *)
Definition coordinate_eq (a b : coordinate) : bool :=
  bool_decide (coordinate_class a = coordinate_class b)
  && tuple_eq (compare_fields a).*2 (compare_fields b).*2.
End Equality.

(** ** Time dependence of a Dimensions aggregate (lines 235-242)

    These methods read attributes of the T coordinate beyond the common
    interface, and are given for aggregates of coordinate values. *)

(** [c.is_static]: the property is defined by [DMTimeCoordinate] only. *)
Definition coordinate_is_static (c : coordinate)
    : result (exn coordinate) bool :=
  match c with
  | Time t => Ok (DMTimeCoordinate.is_static t)
  | _ => Raise (AttributeError "is_static")
  end.

(** [c.range] *)
Definition coordinate_range (c : coordinate)
    : result (exn coordinate) (option AbstractDateRange) :=
  match c with
  | Time t => Ok (DMTimeCoordinate.range t)
  | _ => Raise (AttributeError "range")
  end.

(** Line 237: [(self.T is None) or (self.T.is_static)] *)
Definition is_static (self : DMDimensions.t coordinate)
    : result (exn coordinate) bool :=
  t ← DMDimensions.T self;
  match t with
  | None => Ok true
  | Some c => coordinate_is_static c
  end.

(** [dataclasses.replace(c, range=new_range)]: the class of [c] is called
    with the fields of [c] and the change; a class without a [range] field
    rejects the keyword. *)
Definition replace_range (c : option coordinate)
    (new_range : option AbstractDateRange)
    : result (exn coordinate) coordinate :=
  match c with
  | Some (Time t) => Ok (Time (DMTimeCoordinate.replace_range t new_range))
  | _ => Raise (TypeError "range")
  end.

(** The assignment [self.T = new_T] of line 242.  [T] is defined on the
    class by [@property] (lines 231-233) and has no setter; an assignment to
    an attribute of an instance goes to a property of its class first, and a
    property without a setter raises AttributeError and stores nothing. *)
Definition set_T (self : DMDimensions.t coordinate) (new_T : coordinate)
    : result (exn coordinate) (DMDimensions.t coordinate) :=
  Raise (AttributeError "T").

(** Lines 239-242.  The result is the aggregate after the call. *)
Definition replace_date_range (self : DMDimensions.t coordinate)
    (new_range : option AbstractDateRange)
    : result (exn coordinate) (DMDimensions.t coordinate) :=
  static ← is_static self;
  if static : bool then Raise AssertionError
  else
    t ← DMDimensions.T self;
    new_T ← replace_range t new_range;
    set_T self new_T.

(** ** Auxiliary coordinates and coordinate bounds (lines 244-275) *)

Module DMAuxiliaryCoordinate.
Section WithCoordinates.
Context {A : Type} (axis : A → DMAxis.t).

(** The fields of [DMDimensions], then [name], [standard_name] and
    [units]. *)
Record t := mk {
  dimensions : DMDimensions.t A;
  name : string;
  standard_name : string;
  units : string;
}.

(** [__post_init__] is inherited from [DMDimensions]. *)
Definition __post_init__ (self : t) : result (exn A) t :=
  d ← DMDimensions.__post_init__ axis (dimensions self);
  Ok (mk d (name self) (standard_name self) (units self)).

Definition init (dims scalar_coords : list A)
    (name standard_name units : string) : result (exn A) t :=
  __post_init__ (mk (DMDimensions.mk dims scalar_coords ∅ ∅)
                    name standard_name units).
End WithCoordinates.
Arguments t : clear implicits.
End DMAuxiliaryCoordinate.

Module DMCoordinateBounds.
Section WithCoordinates.
Context {A : Type} (axis : A → DMAxis.t).

(** The subclass declares no field of its own. *)
Definition t : Type := DMAuxiliaryCoordinate.t A.

(** Lines 259-268. *)
Definition __post_init__ (self : t) : result (exn A) t :=
  self ← DMAuxiliaryCoordinate.__post_init__ axis self;
  let scalar_coords :=
    DMDimensions.scalar_coords (DMAuxiliaryCoordinate.dimensions self) in
  let dims := DMDimensions.dims (DMAuxiliaryCoordinate.dimensions self) in
  if bool_decide (scalar_coords ≠ [])
  then Raise (ValueError (With_scalar_coordinates
                            (DMAuxiliaryCoordinate.name self) scalar_coords))
  else if bool_decide (length dims ≠ 2)
          || bool_decide (DMAxis.BOUNDS ∉ (axis <$> dims))
  then Raise (ValueError (Improper_dimensions
                            (DMAuxiliaryCoordinate.name self) dims))
  else Ok self.

Definition init (dims scalar_coords : list A)
    (name standard_name units : string) : result (exn A) t :=
  __post_init__ (DMAuxiliaryCoordinate.mk (DMDimensions.mk dims scalar_coords ∅ ∅)
                   name standard_name units).

(** Lines 270-275: the loop of the property [coord]. *)
Fixpoint first_non_bounds (dims : list A) : result (exn A) A :=
  match dims with
  | [] => Raise (ValueError No_message)
  | c :: dims' =>
      if bool_decide (axis c ≠ DMAxis.BOUNDS) then Ok c
      else first_non_bounds dims'
  end.

Definition coord (self : t) : result (exn A) A :=
  first_non_bounds (DMDimensions.dims (DMAuxiliaryCoordinate.dimensions self)).
End WithCoordinates.
Arguments t : clear implicits.
End DMCoordinateBounds.

(** Lines 289-295: a data variable has the fields of
    [DMAuxiliaryCoordinate] and the [__post_init__] of [DMDimensions]. *)
Module DMVariable.
Section WithCoordinates.
Context {A : Type} (axis : A → DMAxis.t).

Record t := mk {
  dimensions : DMDimensions.t A;
  name : string;
  standard_name : string;
  units : string;
}.

Definition __post_init__ (self : t) : result (exn A) t :=
  d ← DMDimensions.__post_init__ axis (dimensions self);
  Ok (mk d (name self) (standard_name self) (units self)).

Definition init (dims scalar_coords : list A)
    (name standard_name units : string) : result (exn A) t :=
  __post_init__ (mk (DMDimensions.mk dims scalar_coords ∅ ∅)
                    name standard_name units).
End WithCoordinates.
Arguments t : clear implicits.
End DMVariable.

(** ** The heap

    The objects that the factories read, create and update: coordinates, bare
    instances of the mixin, and coordinate bounds, whose [dims],
    [scalar_coords], [axes] and [phys_axes] hold references to coordinate
    objects. *)

Inductive object :=
  | OCoordinate (c : coordinate)
  | OScalarMixin (value : option number)
  | OCoordinateBounds (b : DMCoordinateBounds.t loc).

Abbreviation heap := (gmap loc object).

Definition deref (h : heap) (l : loc) : result (exn loc) object :=
  match h !! l with
  | Some o => Ok o
  | None => Raise InvalidReference
  end.

Definition object_class (o : object) : class :=
  match o with
  | OCoordinate c => coordinate_class c
  | OScalarMixin _ => DMScalarCoordinateMixin_class
  | OCoordinateBounds _ => DMCoordinateBounds_class
  end.

(** The items of an [axes] dict; their order plays no part below. *)
Definition axes_items (d : gmap string (option loc)) : list (string * pyval) :=
  (λ kv, (kv.1, of_option PRef kv.2)) <$> map_to_list d.

(** [dataclasses.fields] of an object, with the attribute values. *)
Definition object_fields (o : object) : list (string * pyval) :=
  match o with
  | OCoordinate c => coordinate_fields c
  | OScalarMixin v => [("value", of_option PNum v)]
  | OCoordinateBounds b =>
      let d := DMAuxiliaryCoordinate.dimensions b in
      [("dims", PTuple (PRef <$> DMDimensions.dims d));
       ("scalar_coords", PSet (DMDimensions.scalar_coords d));
       ("axes", PDict (axes_items (DMDimensions.axes d)));
       ("phys_axes", PDict (axes_items (DMDimensions.phys_axes d)));
       ("name", PStr (DMAuxiliaryCoordinate.name b));
       ("standard_name", PStr (DMAuxiliaryCoordinate.standard_name b));
       ("units", PStr (DMAuxiliaryCoordinate.units b))]
  end.

(** [c.axis] for the coordinate object at [l].  The factory below applies it
    to references of coordinate objects only. *)
Definition heap_axis (h : heap) (l : loc) : DMAxis.t :=
  match h !! l with
  | Some (OCoordinate c) => axis c
  | _ => DMAxis.OTHER
  end.

(** ** [dataclasses.asdict]

    [_asdict_inner] turns a dataclass instance into the dict of its fields,
    converts the members of tuples and the values of dicts, and applies
    [copy.deepcopy] to anything else.  It calls itself on every field value,
    member and dict value; [fuel] is the number of nested calls that the
    interpreter's recursion limit leaves. *)

Definition deepcopy (v : pyval) : pyval :=
  match v with
  | PSet ls | PSetCopy ls => PSetCopy ls
  | _ => v
  end.

Fixpoint asdict_inner (fuel : nat) (h : heap) (v : pyval)
    : result (exn loc) pyval :=
  match fuel with
  | 0 => Raise RecursionError
  | S fuel' =>
      let item kv := w ← asdict_inner fuel' h kv.2; Ok (kv.1, w) in
      match v with
      | PRef l =>
          o ← deref h l;
          kvs ← mapM item (object_fields o);
          Ok (PDict kvs)
      | PTuple vs =>
          ws ← mapM (asdict_inner fuel' h) vs;
          Ok (PTuple ws)
      | PDict kvs =>
          kws ← mapM item kvs;
          Ok (PDict kws)
      | _ => Ok (deepcopy v)
      end
  end.

Definition asdict (fuel : nat) (h : heap) (l : loc)
    : result (exn loc) (list (string * pyval)) :=
  v ← asdict_inner fuel h (PRef l);
  match v with
  | PDict kvs => Ok kvs
  | _ => Raise (TypeError "asdict")
  end.

(** ** Keyword arguments *)

(** [kwargs[key] = v] *)
Fixpoint dict_set (key : string) (v : pyval) (kwargs : list (string * pyval))
    : list (string * pyval) :=
  match kwargs with
  | [] => [(key, v)]
  | (k, w) :: kwargs' =>
      if bool_decide (k = key) then (k, v) :: kwargs'
      else (k, w) :: dict_set key v kwargs'
  end.

Fixpoint keyword (key : string) (kwargs : list (string * pyval))
    : option pyval :=
  match kwargs with
  | [] => None
  | (k, w) :: kwargs' =>
      if bool_decide (k = key) then Some w else keyword key kwargs'
  end.

(** The generated [__init__] raises TypeError for a keyword that names no
    field and for a missing keyword of a field without default.  The records
    hold values of the annotated types, so a keyword value of another type
    is reported as TypeError as well; [from_coordinate] passes none. *)
Definition known_keywords (names : list string)
    (kwargs : list (string * pyval)) : result (exn loc) unit :=
  match filter (λ kv, kv.1 ∉ names) kwargs with
  | [] => Ok ()
  | kv :: _ => Raise (TypeError kv.1)
  end.

Definition str_keyword (key : string) (default : option string)
    (kwargs : list (string * pyval)) : result (exn loc) string :=
  match keyword key kwargs, default with
  | Some (PStr s), _ => Ok s
  | None, Some s => Ok s
  | _, _ => Raise (TypeError key)
  end.

Definition axis_keyword (key : string) (default : DMAxis.t)
    (kwargs : list (string * pyval)) : result (exn loc) DMAxis.t :=
  match keyword key kwargs with
  | Some (PAxis a) => Ok a
  | None => Ok default
  | _ => Raise (TypeError key)
  end.

Definition number_keyword (key : string) (kwargs : list (string * pyval))
    : result (exn loc) (option number) :=
  match keyword key kwargs with
  | Some (PNum n) => Ok (Some n)
  | Some PNone | None => Ok None
  | _ => Raise (TypeError key)
  end.

Definition any_keyword (key : string) (kwargs : list (string * pyval))
    : pyval :=
  default PNone (keyword key kwargs).

(** ** The scalar coordinate factory (lines 148-171) *)

(** The classes that have the class method: the mixin and its subclasses. *)
Inductive scalar_class :=
  | DMScalarCoordinateMixin
  | DMScalarCoordinate
  | DMScalarVerticalCoordinate.

Definition class_of_scalar (cls : scalar_class) : class :=
  match cls with
  | DMScalarCoordinateMixin => DMScalarCoordinateMixin_class
  | DMScalarCoordinate => DMScalarCoordinate_class
  | DMScalarVerticalCoordinate => DMScalarVerticalCoordinate_class
  end.

(** The call of [cls] with the keywords [kwargs], with the defaults of
    lines 27-28, 55-57 and 154. *)
Definition construct (cls : scalar_class) (kwargs : list (string * pyval))
    : result (exn loc) object :=
  match cls with
  | DMScalarCoordinateMixin =>
      _ ← known_keywords ["value"] kwargs;
      value ← number_keyword "value" kwargs;
      Ok (OScalarMixin value)
  | DMScalarCoordinate =>
      _ ← known_keywords
            ["value"; "name"; "standard_name"; "units"; "axis"; "bounds"] kwargs;
      value ← number_keyword "value" kwargs;
      name ← str_keyword "name" None kwargs;
      standard_name ← str_keyword "standard_name" None kwargs;
      units ← str_keyword "units" None kwargs;
      axis ← axis_keyword "axis" DMAxis.OTHER kwargs;
      Ok (OCoordinate (ScalarCoordinate
            (DMScalarCoordinate.mk value name standard_name units axis
               (any_keyword "bounds" kwargs))))
  | DMScalarVerticalCoordinate =>
      _ ← known_keywords
            ["value"; "name"; "standard_name"; "units"; "positive"; "bounds"]
            kwargs;
      value ← number_keyword "value" kwargs;
      name ← str_keyword "name" None kwargs;
      standard_name ← str_keyword "standard_name" None kwargs;
      units ← str_keyword "units" (Some "1") kwargs;
      positive ← str_keyword "positive" None kwargs;
      Ok (OCoordinate (ScalarVertical
            (DMScalarVerticalCoordinate.mk value name standard_name units
               positive (any_keyword "bounds" kwargs))))
  end.

(** Lines 156-163.  The new instance is allocated at a fresh reference,
    which is returned with the heap after the call. *)
Definition DMScalarCoordinateMixin_from_coordinate (cls : scalar_class)
    (fuel : nat) (h : heap) (coord : loc) (value : option number)
    : result (exn loc) (heap * loc) :=
  o ← deref h coord;
  if negb (issubclass (class_of_scalar cls) (object_class o))
  then Raise (ValueError (Different_type (class_of_scalar cls) coord))
  else
    kwargs ← asdict fuel h coord;
    let kwargs := dict_set "value" (of_option PNum value) kwargs in
    new ← construct cls kwargs;
    let l := fresh (dom h) in
    Ok (<[l := new]> h, l).

(** ** The coordinate bounds factory (lines 277-287) *)

(** [getattr(coord, attr)] for the three attributes that the factory
    copies. *)
Definition identity_attributes (o : object)
    : result (exn loc) (string * string * string) :=
  match o with
  | OCoordinate c => Ok (name c, standard_name c, units c)
  | OCoordinateBounds b =>
      Ok (DMAuxiliaryCoordinate.name b, DMAuxiliaryCoordinate.standard_name b,
          DMAuxiliaryCoordinate.units b)
  | OScalarMixin _ => Raise (AttributeError "name")
  end.

(** Lines 281-282.  An argument that is no [DMBoundsDimension] instance
    becomes the [name] of a new one.  The source does no type check there:
    it stores any object as the name.  The records here hold names of the
    declared type [str], so this definition follows the source on strings
    and on references to a DMBoundsDimension only; on any other argument it
    ends in TypeError, which the source does not raise; the properties
    below do not rest on that outcome. *)
Definition bounds_dimension (h : heap) (bounds_dim : pyval)
    : result (exn loc) (heap * loc) :=
  let new s :=
    let l := fresh (dom h) in
    Ok (<[l := OCoordinate (BoundsDimension (DMBoundsDimension.init s))]> h, l) in
  match bounds_dim with
  | PRef l =>
      match h !! l with
      | Some (OCoordinate (BoundsDimension _)) => Ok (h, l)
      | _ => Raise (TypeError "name")
      end
  | PStr s => new s
  | _ => Raise (TypeError "name")
  end.

Definition DMCoordinateBounds_from_coordinate (h : heap) (coord : loc)
    (bounds_dim : pyval) : result (exn loc) (heap * loc) :=
  o ← deref h coord;
  '(name, standard_name, units) ← identity_attributes o;
  '(h1, bounds_dim) ← bounds_dimension h bounds_dim;
  (* [c.axis] is read first for [coord], in [__post_init__] *)
  c ← match o with
      | OCoordinate c => Ok c
      | _ => Raise (AttributeError "axis")
      end;
  coord_bounds ← DMCoordinateBounds.init (heap_axis h1) [coord; bounds_dim] []
                   name standard_name units;
  let l := fresh (dom h1) in
  let h2 := <[l := OCoordinateBounds coord_bounds]> h1 in
  Ok (<[coord := OCoordinate (set_bounds c (PRef l))]> h2, l).


(** ** Vocabulary of the properties *)

(** The axis kinds X, Y, Z and T. *)
Definition spatiotemporal (a : DMAxis.t) : Prop :=
  DMAxis.name a ∈ DMAxis.spatiotemporal_names.

(** Two entries of the chain carry the same axis kind other than OTHER. *)
Definition duplicate_axis {A} (axis : A → DMAxis.t) (chain : list A) : Prop :=
  ∃ (i j : nat) c1 c2,
    i < j ∧ chain !! i = Some c1 ∧ chain !! j = Some c2
    ∧ axis c1 = axis c2 ∧ axis c1 ≠ DMAxis.OTHER.

(** What the loop of lines 200-206 knows about the entries [seen] so far:
    each slot of [temp_d] holds an entry seen under that axis name, and every
    entry seen has its axis name recorded. *)
Definition records {A} (axis : A → DMAxis.t) (temp_d : gmap string A)
    (seen : list A) : Prop :=
  (∀ k p, temp_d !! k = Some p →
     ∃ i : nat, seen !! i = Some p ∧ DMAxis.name (axis p) = k)
  ∧ (∀ (i : nat) p, seen !! i = Some p → is_Some (temp_d !! DMAxis.name (axis p))).

(** The two [ValueError]s of [DMCoordinateBounds.__post_init__]. *)
Definition malformed_bounds {A} (e : exn A) : Prop :=
  match e with
  | ValueError (With_scalar_coordinates _ _)
  | ValueError (Improper_dimensions _ _) => True
  | _ => False
  end.

(** ** Sample data *)

Definition lat : coordinate :=
  Latitude (DMLatitudeCoordinate.mk "lat" PNone).

Definition rlat : coordinate :=
  Latitude (DMLatitudeCoordinate.mk "rlat" PNone).

Definition lon : coordinate :=
  Longitude (DMLongitudeCoordinate.mk "lon" PNone).

Definition plev500 : coordinate :=
  ScalarVertical
    (DMScalarVerticalCoordinate.mk (Some (PyInt 500)) "plev" "air_pressure"
       "hPa" "down" PNone).

Definition lat_bnds : coordinate :=
  BoundsDimension (DMBoundsDimension.init "lat_bnds").

Definition lon_bnds : coordinate :=
  BoundsDimension (DMBoundsDimension.init "lon_bnds").

Definition time_1980_1990 : coordinate :=
  Time (DMTimeCoordinate.mk "time" "days since 1980-01-01" "noleap"
          (Some (DateRange 1980 1990)) None PNone).

Definition time_1990_2000 : coordinate :=
  Time (DMTimeCoordinate.mk "time" "days since 1980-01-01" "noleap"
          (Some (DateRange 1990 2000)) None PNone).

Definition sigma (formula_terms : option string) : coordinate :=
  ParametricVertical
    (DMParametricVerticalCoordinate.mk "lev" "atmosphere_sigma_coordinate"
       "1" "down" PNone "air_pressure" "sigma level" formula_terms).

(** A heap with one object, a generic coordinate for the latitude. *)
Definition latitude : coordinate :=
  Coordinate
    (DMCoordinate.mk "lat" "latitude" "degrees_north" DMAxis.Y PNone).

Definition heap_latitude : heap := {[ 1%positive := OCoordinate latitude ]}.

(** The heap after [DMCoordinateBounds.from_coordinate(latitude,
    "lat_bnds")]: the latitude at reference 1, the bounds dimension at 2 and
    the bounds at 3. *)
Definition heap_latitude_bounds : heap :=
  match DMCoordinateBounds_from_coordinate heap_latitude 1%positive
          (PStr "lat_bnds") with
  | Ok (h, _) => h
  | Raise _ => heap_latitude
  end.

(** A scalar coordinate of kind OTHER: the member of an ensemble. *)
Definition member : coordinate :=
  ScalarCoordinate
    (DMScalarCoordinate.mk (Some (PyInt 1)) "member" "realization" "1"
       DMAxis.OTHER PNone).

(** A scalar coordinate of kind T, and a generic coordinate of kind T. *)
Definition forecast_time : coordinate :=
  ScalarCoordinate
    (DMScalarCoordinate.mk (Some (PyInt 0)) "time" "time" "days since 1980-01-01"
       DMAxis.T PNone).

Definition generic_time : coordinate :=
  Coordinate
    (DMCoordinate.mk "time" "time" "days since 1980-01-01" DMAxis.T PNone).

(** The axis that the class body fixes for every instance (lines 37, 46, 59,
    85 and 106; the vertical classes inherit line 59), if it fixes one. *)
Definition class_axis (k : class) : option DMAxis.t :=
  match k with
  | DMLongitudeCoordinate_class => Some DMAxis.X
  | DMLatitudeCoordinate_class => Some DMAxis.Y
  | DMVerticalCoordinate_class | DMParametricVerticalCoordinate_class
  | DMScalarVerticalCoordinate_class => Some DMAxis.Z
  | DMTimeCoordinate_class => Some DMAxis.T
  | DMBoundsDimension_class => Some DMAxis.BOUNDS
  | _ => None
  end.

(** The coordinate classes among the bases of a scalar class, the class
    itself included (lines 165-171). *)
Definition scalar_bases (cls : scalar_class) : list class :=
  match cls with
  | DMScalarCoordinateMixin => []
  | DMScalarCoordinate => [DMScalarCoordinate_class; DMCoordinate_class]
  | DMScalarVerticalCoordinate =>
      [DMScalarVerticalCoordinate_class; DMVerticalCoordinate_class]
  end.

(** A heap with a vertical coordinate and a scalar coordinate. *)
Definition heap_levels : heap :=
  {[ 1%positive := OCoordinate
       (Vertical (DMVerticalCoordinate.mk "plev" "air_pressure" "hPa" "down"
                    PNone));
     2%positive := OCoordinate member;
     3%positive := OCoordinate lon ]}.

(** A coordinate without what [compare=False] takes out of comparison. *)
Definition forget_formula_terms (c : coordinate) : coordinate :=
  match c with
  | ParametricVertical p =>
      ParametricVertical
        (DMParametricVerticalCoordinate.mk
           (DMParametricVerticalCoordinate.name p)
           (DMParametricVerticalCoordinate.standard_name p)
           (DMParametricVerticalCoordinate.units p)
           (DMParametricVerticalCoordinate.positive p)
           (DMParametricVerticalCoordinate.bounds p)
           (DMParametricVerticalCoordinate.computed_standard_name p)
           (DMParametricVerticalCoordinate.long_name p) None)
  | _ => c
  end.

(** The classes with the field [value]. *)
Definition is_scalar (c : coordinate) : bool :=
  match c with
  | ScalarCoordinate _ | ScalarVertical _ => true
  | _ => false
  end.

(** * Properties *)

Lemma axis_name_inj (a b : DMAxis.t) : DMAxis.name a = DMAxis.name b → a = b.
Proof. by destruct a, b. Qed.

Lemma axis_name_OTHER (a : DMAxis.t) :
  DMAxis.name a = "OTHER" ↔ a = DMAxis.OTHER.
Proof. split; [by destruct a | by intros ->]. Qed.

Lemma spatiotemporal_cases (a : DMAxis.t) :
  spatiotemporal a ↔ a ≠ DMAxis.BOUNDS ∧ a ≠ DMAxis.OTHER.
Proof.
  unfold spatiotemporal, DMAxis.spatiotemporal_names.
  rewrite !elem_of_cons, elem_of_nil.
  destruct a; simpl; split; intros H; try (split; discriminate); auto 6;
    try (destruct H as [? ?]; congruence);
    repeat (destruct H as [H | H]; try discriminate H); done.
Qed.

Section DimensionsFacts.
Context {A : Type} (axis : A → DMAxis.t).

Lemma records_empty : records axis ∅ [].
Proof.
  split; [intros k p H | intros i p H].
  - by rewrite lookup_empty in H.
  - by rewrite lookup_nil in H.
Qed.

Lemma records_step (temp_d : gmap string A) (seen : list A) (c : A) :
  records axis temp_d seen →
  records axis (<[DMAxis.name (axis c) := c]> temp_d) (seen ++ [c]).
Proof.
  intros [Hslot Hseen]. split.
  - intros k p Hk.
    destruct (decide (DMAxis.name (axis c) = k)) as [<- | Hne].
    + rewrite lookup_insert_eq in Hk. injection Hk as <-.
      exists (length seen). split; [| done].
      by rewrite lookup_app_r, Nat.sub_diag.
    + rewrite lookup_insert_ne in Hk by done.
      destruct (Hslot k p Hk) as (i & Hi & Hn).
      exists i. split; [| done].
      by rewrite lookup_app_l by (eapply lookup_lt_Some; eauto).
  - intros i p Hi.
    destruct (decide (DMAxis.name (axis c) = DMAxis.name (axis p))) as [-> | Hne].
    + rewrite lookup_insert_eq. eauto.
    + rewrite lookup_insert_ne by done.
      apply lookup_app_Some in Hi as [Hi | [_ Hi]]; [by eapply Hseen |].
      apply list_lookup_singleton_Some in Hi as [_ ->]. done.
Qed.

(** The loop either stops at the first entry whose axis name is already
    recorded, naming that entry and the recorded one, or it runs through and
    no entry of [chain] repeats the axis of an earlier one. *)
Lemma check_duplicates_spec (chain seen : list A) (temp_d : gmap string A) :
  records axis temp_d seen →
  match DMDimensions.check_duplicates axis temp_d chain with
  | Ok d =>
      records axis d (seen ++ chain)
      ∧ ∀ (i j : nat) c1 c2, i < j → length seen ≤ j →
          (seen ++ chain) !! i = Some c1 → (seen ++ chain) !! j = Some c2 →
          axis c1 = axis c2 → axis c1 = DMAxis.OTHER
  | Raise e =>
      ∃ (i j : nat) c prev,
        e = ValueError (Duplicate_definition (DMAxis.name (axis c)) c prev)
        ∧ i < j ∧ (seen ++ chain) !! i = Some prev
        ∧ (seen ++ chain) !! j = Some c
        ∧ axis prev = axis c ∧ axis c ≠ DMAxis.OTHER
  end.
Proof.
  revert seen temp_d.
  induction chain as [| c chain IH]; intros seen temp_d Hrec; simpl.
  - rewrite app_nil_r. split; [done |].
    intros i j c1 c2 _ Hj _ H2 _.
    apply lookup_lt_Some in H2. lia.
  - unfold DMDimensions.axis_name.
    destruct (bool_decide (DMAxis.name (axis c) ≠ "OTHER")
              && bool_decide (is_Some (temp_d !! DMAxis.name (axis c)))) eqn:Hdup.
    + apply andb_prop in Hdup as [Hother Hsome].
      apply bool_decide_eq_true in Hother, Hsome.
      destruct Hsome as [prev Hprev].
      unfold getitem. rewrite Hprev. simpl.
      destruct Hrec as [Hslot _].
      destruct (Hslot _ _ Hprev) as (i & Hi & Hn).
      exists i, (length seen), c, prev.
      split; [done |]. split; [by eapply lookup_lt_Some |].
      split; [by rewrite lookup_app_l by (eapply lookup_lt_Some; eauto) |].
      split; [by rewrite lookup_app_r, Nat.sub_diag |].
      split; [by apply axis_name_inj |].
      by rewrite <- axis_name_OTHER.
    + specialize (IH (seen ++ [c]) _ (records_step _ _ c Hrec)).
      rewrite <- app_assoc in IH. simpl in IH.
      destruct (DMDimensions.check_duplicates axis _ chain) as [d | e];
        [| exact IH].
      destruct IH as [Hd Hlater]. split; [done |].
      intros i j c1 c2 Hij Hj H1 H2 Hax.
      destruct (decide (j = length seen)) as [-> | Hne].
      * rewrite lookup_app_l in H1 by done.
        rewrite lookup_app_r, Nat.sub_diag in H2 by done.
        injection H2 as <-.
        apply andb_false_iff in Hdup as [Hother | Hnone].
        -- apply bool_decide_eq_false in Hother.
           rewrite Hax. apply axis_name_OTHER.
           by destruct (decide (DMAxis.name (axis c) = "OTHER")).
        -- apply bool_decide_eq_false in Hnone.
           destruct Hnone. rewrite <- Hax. by eapply (proj2 Hrec).
      * eapply (Hlater i j); eauto.
        rewrite length_app. simpl. lia.
Qed.

Lemma check_duplicates_ok (chain : list A) :
  ¬ duplicate_axis axis chain →
  ∃ d, DMDimensions.check_duplicates axis ∅ chain = Ok d.
Proof.
  intros Hno.
  pose proof (check_duplicates_spec chain [] ∅ records_empty) as H.
  destruct (DMDimensions.check_duplicates axis ∅ chain) as [d | e]; [eauto |].
  destruct H as (i & j & c & prev & _ & Hij & Hi & Hj & Hax & Hother).
  destruct Hno. exists i, j, prev, c. simpl in *. repeat split; congruence.
Qed.

Lemma check_duplicates_raise (chain : list A) :
  duplicate_axis axis chain →
  ∃ (i j : nat) c prev,
    DMDimensions.check_duplicates axis ∅ chain
    = Raise (ValueError (Duplicate_definition (DMAxis.name (axis c)) c prev))
    ∧ i < j ∧ chain !! i = Some prev ∧ chain !! j = Some c
    ∧ axis prev = axis c ∧ axis c ≠ DMAxis.OTHER.
Proof.
  intros (i & j & c1 & c2 & Hij & H1 & H2 & Hax & Hother).
  pose proof (check_duplicates_spec chain [] ∅ records_empty) as H.
  destruct (DMDimensions.check_duplicates axis ∅ chain) as [d | e].
  - destruct H as [_ H]. destruct Hother.
    eapply (H i j); simpl; eauto. lia.
  - destruct H as (i' & j' & c & prev & -> & H). simpl in H. eauto 10.
Qed.

Lemma check_duplicates_ok_inv (chain : list A) (d : gmap string A) :
  DMDimensions.check_duplicates axis ∅ chain = Ok d →
  ¬ duplicate_axis axis chain.
Proof.
  intros Hok Hdup.
  apply check_duplicates_raise in Hdup as (? & ? & ? & ? & Hr & _).
  congruence.
Qed.

End DimensionsFacts.

Section AxesFacts.
Context {A : Type} (axis : A → DMAxis.t).

Lemma assign_axes_snoc (d : gmap string (option A)) (cs : list A) (c : A) :
  DMDimensions.assign_axes axis d (cs ++ [c])
  = DMDimensions.assign_axis axis (DMDimensions.assign_axes axis d cs) c.
Proof. unfold DMDimensions.assign_axes. by rewrite foldl_app. Qed.

Lemma assign_axis_lookup (d : gmap string (option A)) (c : A) (key : string) :
  DMDimensions.assign_axis axis d c !! key
  = if decide (spatiotemporal (axis c) ∧ DMAxis.name (axis c) = key)
    then Some (Some c) else d !! key.
Proof.
  unfold DMDimensions.assign_axis, DMDimensions.axis_name, spatiotemporal.
  case_bool_decide as Hst; case_decide as Hk.
  - destruct Hk as [_ <-]. by rewrite lookup_insert_eq.
  - rewrite lookup_insert_ne; [done |]. intros Heq. by destruct Hk.
  - by destruct Hk as [? _].
  - done.
Qed.

(** A slot holds a coordinate only if it did before the pass, or the
    coordinate is among those assigned, under the name of its axis. *)
Lemma assign_axes_lookup_Some (cs : list A) (d : gmap string (option A))
    (key : string) (c : A) :
  DMDimensions.assign_axes axis d cs !! key = Some (Some c) →
  d !! key = Some (Some c)
  ∨ (c ∈ cs ∧ DMAxis.name (axis c) = key ∧ spatiotemporal (axis c)).
Proof.
  induction cs as [| c0 cs IH] using rev_ind; [by left |].
  rewrite assign_axes_snoc, assign_axis_lookup.
  case_decide as Hk.
  - intros [= <-]. right. destruct Hk. split; [| done].
    apply elem_of_app. right. apply list_elem_of_singleton. done.
  - intros [? | (? & ? & ?)]%IH; [by left | right].
    split; [| done]. apply elem_of_app. by left.
Qed.

Lemma assign_axes_lookup_other (cs : list A) (d : gmap string (option A))
    (key : string) :
  (∀ c, c ∈ cs → DMAxis.name (axis c) ≠ key) →
  DMDimensions.assign_axes axis d cs !! key = d !! key.
Proof.
  induction cs as [| c0 cs IH] using rev_ind; [done |].
  intros Hne. rewrite assign_axes_snoc, assign_axis_lookup.
  case_decide as Hk.
  - destruct Hk as [_ Hk]. destruct (Hne c0); [| done].
    apply elem_of_app. right. by apply list_elem_of_singleton.
  - apply IH. intros c Hc. apply Hne, elem_of_app. by left.
Qed.

(** The slot of a spatiotemporal axis holds the one coordinate assigned
    with that axis. *)
Lemma assign_axes_lookup_unique (cs : list A) (d : gmap string (option A))
    (c : A) :
  c ∈ cs → spatiotemporal (axis c) →
  (∀ c', c' ∈ cs → axis c' = axis c → c' = c) →
  DMDimensions.assign_axes axis d cs !! DMAxis.name (axis c) = Some (Some c).
Proof.
  induction cs as [| c0 cs IH] using rev_ind; [by intros ?%elem_of_nil |].
  intros Hin Hst Huniq. rewrite assign_axes_snoc, assign_axis_lookup.
  case_decide as Hk.
  - destruct Hk as [_ Hk%axis_name_inj].
    rewrite (Huniq c0); [done | | done].
    apply elem_of_app. right. by apply list_elem_of_singleton.
  - apply elem_of_app in Hin as [Hin | ->%list_elem_of_singleton].
    + apply IH; [done | done |].
      intros c' Hc'. apply Huniq, elem_of_app. by left.
    + by destruct Hk.
Qed.

Lemma empty_axes_lookup (a : DMAxis.t) :
  spatiotemporal a →
  DMDimensions.empty_axes (A := A) !! DMAxis.name a = Some None.
Proof. intros [Hb Ho]%spatiotemporal_cases. by destruct a. Qed.

Lemma empty_axes_lookup_Some (key : string) (v : option A) :
  DMDimensions.empty_axes !! key = Some v → v = None.
Proof.
  unfold DMDimensions.empty_axes. simpl.
  rewrite !lookup_insert_Some, lookup_empty. intros H.
  repeat (destruct H as [[_ H] | [_ H]]; [by symmetry |]). done.
Qed.

(** [init] succeeds exactly when the chain has no duplicate axis, and then
    returns the aggregate with the axis tables filled from [dims] and
    [scalar_coords]. *)
Lemma init_ok (dims scalar_coords : list A) :
  ¬ duplicate_axis axis (dims ++ scalar_coords) →
  DMDimensions.init axis dims scalar_coords
  = Ok (DMDimensions.mk dims scalar_coords
          (DMDimensions.assign_axes axis DMDimensions.empty_axes dims)
          (DMDimensions.assign_axes axis
             (DMDimensions.assign_axes axis DMDimensions.empty_axes dims)
             scalar_coords)).
Proof.
  intros [d Hd]%check_duplicates_ok.
  unfold DMDimensions.init, DMDimensions.__post_init__. simpl. by rewrite Hd.
Qed.

Lemma init_ok_inv (dims scalar_coords : list A) (d : DMDimensions.t A) :
  DMDimensions.init axis dims scalar_coords = Ok d →
  ¬ duplicate_axis axis (dims ++ scalar_coords)
  ∧ d = DMDimensions.mk dims scalar_coords
          (DMDimensions.assign_axes axis DMDimensions.empty_axes dims)
          (DMDimensions.assign_axes axis
             (DMDimensions.assign_axes axis DMDimensions.empty_axes dims)
             scalar_coords).
Proof.
  unfold DMDimensions.init, DMDimensions.__post_init__. simpl. intros Hd.
  destruct (DMDimensions.check_duplicates axis ∅ _) as [t | e] eqn:Hc;
    [| discriminate].
  split; [by eapply check_duplicates_ok_inv |].
  simpl in Hd. congruence.
Qed.

End AxesFacts.

(** ** Construction of a Dimensions aggregate *)

(** C2: when two entries of the chain of [dims] and [scalar_coords] carry
    the same axis kind other than OTHER (BOUNDS included), construction
    raises the ValueError "Duplicate definition of ... axis", and the two
    coordinates in its message are two entries of the chain, at different
    positions, that carry that same axis kind. *)
Theorem duplicate_axis_raises {A : Type} (axis : A → DMAxis.t)
    (dims scalar_coords : list A) :
  duplicate_axis axis (dims ++ scalar_coords) →
  ∃ (i j : nat) c prev,
    DMDimensions.init axis dims scalar_coords
    = Raise (ValueError (Duplicate_definition (DMAxis.name (axis c)) c prev))
    ∧ i < j ∧ (dims ++ scalar_coords) !! i = Some prev
    ∧ (dims ++ scalar_coords) !! j = Some c
    ∧ axis prev = axis c ∧ axis c ≠ DMAxis.OTHER.
Proof.
  intros Hdup.
  destruct (check_duplicates_raise axis _ Hdup)
    as (i & j & c & prev & Hraise & Hpositions).
  exists i, j, c, prev. split; [| exact Hpositions].
  unfold DMDimensions.init, DMDimensions.__post_init__. simpl.
  by rewrite Hraise.
Qed.

Lemma duplicate_axis_raises_witness :
  ∃ (i j : nat) c prev,
    DMDimensions.init axis [lat_bnds; lat] [plev500; lon_bnds]
    = Raise (ValueError (Duplicate_definition (DMAxis.name (axis c)) c prev))
    ∧ i < j ∧ ([lat_bnds; lat] ++ [plev500; lon_bnds]) !! i = Some prev
    ∧ ([lat_bnds; lat] ++ [plev500; lon_bnds]) !! j = Some c
    ∧ axis prev = axis c ∧ axis c ≠ DMAxis.OTHER.
Proof.
  apply (duplicate_axis_raises axis [lat_bnds; lat] [plev500; lon_bnds]).
  exists 0, 3, lat_bnds, lon_bnds. simpl.
  split; [lia |]. repeat split; discriminate.
Defined.

(** C3: when every coordinate is of a spatiotemporal kind or of kind OTHER
    and no two of them share a spatiotemporal kind, construction succeeds;
    for each spatiotemporal kind [k], [axes[k]] is the entry of [dims]
    carrying [k], which is the only such entry, and is [None] when [dims]
    has no such entry. *)
Theorem distinct_axes_construct {A : Type} (axis : A → DMAxis.t)
    (dims scalar_coords : list A) :
  (∀ c, c ∈ dims ++ scalar_coords →
     spatiotemporal (axis c) ∨ axis c = DMAxis.OTHER) →
  (∀ (i j : nat) c1 c2,
     (dims ++ scalar_coords) !! i = Some c1 →
     (dims ++ scalar_coords) !! j = Some c2 →
     i ≠ j → spatiotemporal (axis c1) → axis c1 ≠ axis c2) →
  ∃ d,
    DMDimensions.init axis dims scalar_coords = Ok d
    ∧ DMDimensions.dims d = dims
    ∧ DMDimensions.scalar_coords d = scalar_coords
    ∧ ∀ k, spatiotemporal k →
        (∀ (i : nat) c, dims !! i = Some c → axis c = k →
           DMDimensions.axes d !! DMAxis.name k = Some (Some c)
           ∧ ∀ (j : nat) c', dims !! j = Some c' → axis c' = k → j = i)
        ∧ ((∀ c, c ∈ dims → axis c ≠ k) →
           DMDimensions.axes d !! DMAxis.name k = Some None).
Proof.
  intros Hkinds Hdistinct.
  assert (Hno : ¬ duplicate_axis axis (dims ++ scalar_coords)).
  { intros (i & j & c1 & c2 & Hij & H1 & H2 & Hax & Hother).
    eapply (Hdistinct i j); eauto; [lia |].
    destruct (Hkinds c1); [by eapply list_elem_of_lookup_2 | done | done]. }
  eexists. split; [by apply init_ok |]. simpl.
  split; [done |]. split; [done |].
  intros k Hk.
  assert (Honly : ∀ (i j : nat) c c', dims !! i = Some c → dims !! j = Some c' →
                    axis c = k → axis c' = k → j = i).
  { intros i j c c' Hi Hj <- Hc'.
    destruct (decide (i = j)) as [| Hne]; [done |].
    destruct (Hdistinct i j c c'); auto using lookup_app_l_Some. }
  split.
  - intros i c Hi Hc. split; [| by eauto].
    rewrite <- Hc. apply assign_axes_lookup_unique.
    + by eapply list_elem_of_lookup_2.
    + by rewrite Hc.
    + intros c' [j Hj]%list_elem_of_lookup_1 Hc'.
      assert (j = i) as -> by (eapply Honly; eauto; congruence).
      congruence.
  - intros Hnone. rewrite assign_axes_lookup_other.
    + by apply empty_axes_lookup.
    + intros c Hc Hname%axis_name_inj. by apply (Hnone c).
Qed.

Lemma distinct_axes_construct_witness :
  ∃ d,
    DMDimensions.init axis [time_1980_1990; lat; lon] [plev500] = Ok d
    ∧ DMDimensions.dims d = [time_1980_1990; lat; lon]
    ∧ DMDimensions.scalar_coords d = [plev500]
    ∧ ∀ k, spatiotemporal k →
        (∀ (i : nat) c, [time_1980_1990; lat; lon] !! i = Some c → axis c = k →
           DMDimensions.axes d !! DMAxis.name k = Some (Some c)
           ∧ ∀ (j : nat) c', [time_1980_1990; lat; lon] !! j = Some c' →
               axis c' = k → j = i)
        ∧ ((∀ c, c ∈ [time_1980_1990; lat; lon] → axis c ≠ k) →
           DMDimensions.axes d !! DMAxis.name k = Some None).
Proof.
  apply (distinct_axes_construct axis [time_1980_1990; lat; lon] [plev500]).
  - intros c Hc. simpl in Hc.
    repeat (apply elem_of_cons in Hc as [-> | Hc];
            [left; apply spatiotemporal_cases; split; discriminate |]).
    by apply elem_of_nil in Hc.
  - intros [| [| [| [| i]]]] [| [| [| [| j]]]] c1 c2 H1 H2 Hij _;
      simpl in H1, H2; try discriminate; try (by destruct Hij);
      injection H1 as <-; injection H2 as <-; discriminate.
Defined.

(** C4: in a constructed aggregate, a member of [scalar_coords] of a
    spatiotemporal axis kind is in no slot of [axes], the slot of its axis
    kind in [axes] is [None], and the slot of its axis kind in [phys_axes]
    holds it. *)
Theorem scalar_coordinate_slots {A : Type} (axis : A → DMAxis.t)
    (dims scalar_coords : list A) (d : DMDimensions.t A) (c : A) :
  DMDimensions.init axis dims scalar_coords = Ok d →
  c ∈ DMDimensions.scalar_coords d → spatiotemporal (axis c) →
  (∀ key, DMDimensions.axes d !! key ≠ Some (Some c))
  ∧ DMDimensions.axes d !! DMAxis.name (axis c) = Some None
  ∧ DMDimensions.phys_axes d !! DMAxis.name (axis c) = Some (Some c).
Proof.
  intros [Hno ->]%init_ok_inv Hc Hst. simpl in *.
  apply list_elem_of_lookup_1 in Hc as Hj. destruct Hj as [j Hj].
  assert (Hother : axis c ≠ DMAxis.OTHER) by by apply spatiotemporal_cases.
  assert (Hdims : ∀ c', c' ∈ dims → axis c' ≠ axis c).
  { intros c' [i Hi]%list_elem_of_lookup_1 Hax. apply Hno.
    exists i, (length dims + j), c', c.
    pose proof (lookup_lt_Some _ _ _ Hi).
    split; [lia |]. split; [by apply lookup_app_l_Some |].
    split; [by rewrite lookup_app_r, Nat.add_sub' by lia |].
    split; congruence. }
  split; [| split].
  - intros key [Hk | (Hin & _ & _)]%assign_axes_lookup_Some.
    + by apply empty_axes_lookup_Some in Hk.
    + by apply (Hdims c).
  - rewrite assign_axes_lookup_other; [by apply empty_axes_lookup |].
    intros c' Hc' Hname%axis_name_inj. by apply (Hdims c').
  - apply assign_axes_lookup_unique; [done | done |].
    intros c' [i Hi]%list_elem_of_lookup_1 Hax.
    destruct (decide (i = j)) as [-> | Hne]; [congruence |].
    destruct Hno.
    pose proof (lookup_lt_Some _ _ _ Hi). pose proof (lookup_lt_Some _ _ _ Hj).
    destruct (decide (i < j)).
    + exists (length dims + i), (length dims + j), c', c.
      split; [lia |]. rewrite !lookup_app_r, !Nat.add_sub' by lia.
      repeat split; congruence.
    + exists (length dims + j), (length dims + i), c, c'.
      split; [lia |]. rewrite !lookup_app_r, !Nat.add_sub' by lia.
      repeat split; congruence.
Qed.

Lemma scalar_coordinate_slots_witness :
  ∃ d,
    DMDimensions.init axis [lat] [plev500] = Ok d
    ∧ (∀ key, DMDimensions.axes d !! key ≠ Some (Some plev500))
    ∧ DMDimensions.axes d !! "Z" = Some None
    ∧ DMDimensions.phys_axes d !! "Z" = Some (Some plev500).
Proof.
  eexists. split; [reflexivity |].
  refine (scalar_coordinate_slots axis [lat] [plev500] _ plev500 _ _ _).
  - reflexivity.
  - simpl. apply list_elem_of_here.
  - apply spatiotemporal_cases. split; discriminate.
Defined.

(** ** Time dependence *)

Lemma assign_axes_lookup_is_Some {A : Type} (axis : A → DMAxis.t)
    (cs : list A) (d : gmap string (option A)) (key : string) :
  is_Some (d !! key) →
  is_Some (DMDimensions.assign_axes axis d cs !! key).
Proof.
  intros Hd. induction cs as [| c cs IH] using rev_ind; [done |].
  rewrite assign_axes_snoc, assign_axis_lookup. by case_decide.
Qed.

(** Every constructed aggregate has the slot [axes['T']]. *)
Lemma init_T_slot {A : Type} (axis : A → DMAxis.t)
    (dims scalar_coords : list A) (d : DMDimensions.t A) :
  DMDimensions.init axis dims scalar_coords = Ok d →
  ∃ t, DMDimensions.axes d !! "T" = Some t.
Proof.
  intros [_ ->]%init_ok_inv. simpl.
  apply (assign_axes_lookup_is_Some axis dims _ "T"). by eexists.
Qed.

(** C9: a constructed aggregate has a slot [axes['T']]; [is_static] is
    true exactly when the slot is [None] or holds a coordinate whose [range]
    is [FXDateRange], and it is false when the slot holds a coordinate whose
    [range] is anything else. *)
Theorem is_static_spec (dims scalar_coords : list coordinate)
    (d : DMDimensions.t coordinate) :
  DMDimensions.init axis dims scalar_coords = Ok d →
  ∃ t,
    DMDimensions.axes d !! "T" = Some t
    ∧ (is_static d = Ok true ↔
         t = None
         ∨ ∃ c, t = Some c ∧ coordinate_range c = Ok (Some FXDateRange))
    ∧ (∀ c r, t = Some c → coordinate_range c = Ok r →
         r ≠ Some FXDateRange → is_static d = Ok false).
Proof.
  intros [t Ht]%init_T_slot. exists t. split; [done |].
  unfold is_static, DMDimensions.T, getitem. rewrite Ht. simpl.
  split; [split |].
  - destruct t as [c |]; [| by left]. intros Hs. right. exists c.
    split; [done |].
    destruct c; simpl in *; try discriminate.
    injection Hs as Hs. by apply bool_decide_eq_true in Hs as ->.
  - intros [-> | (c & -> & Hr)]; [done |].
    destruct c; simpl in *; try discriminate.
    injection Hr as Hr. unfold DMTimeCoordinate.is_static.
    by rewrite bool_decide_eq_true_2.
  - intros c r -> Hr Hne.
    destruct c; simpl in *; try discriminate.
    injection Hr as <-. unfold DMTimeCoordinate.is_static.
    by rewrite bool_decide_eq_false_2.
Qed.

Lemma is_static_spec_witness :
  ∃ d t,
    DMDimensions.init axis [time_1980_1990; lat] [plev500] = Ok d
    ∧ DMDimensions.axes d !! "T" = Some t
    ∧ (is_static d = Ok true ↔
         t = None
         ∨ ∃ c, t = Some c ∧ coordinate_range c = Ok (Some FXDateRange))
    ∧ (∀ c r, t = Some c → coordinate_range c = Ok r →
         r ≠ Some FXDateRange → is_static d = Ok false).
Proof.
  eexists.
  destruct (is_static_spec [time_1980_1990; lat] [plev500] _ eq_refl)
    as (t & H).
  exists t. split; [reflexivity | exact H].
Defined.

(** On a static aggregate the assertion of line 240 fails. *)
Lemma replace_date_range_static (d : DMDimensions.t coordinate)
    (new_range : option AbstractDateRange) :
  is_static d = Ok true →
  replace_date_range d new_range = Raise AssertionError.
Proof. unfold replace_date_range. by intros ->. Qed.

(** On an aggregate that is not static the call reaches the assignment to
    the property [T] and raises there. *)
Lemma replace_date_range_not_static (d : DMDimensions.t coordinate)
    (new_range : option AbstractDateRange) :
  is_static d = Ok false →
  replace_date_range d new_range = Raise (AttributeError "T").
Proof.
  unfold replace_date_range. intros Hs. rewrite Hs. simpl.
  unfold is_static in Hs.
  destruct (DMDimensions.T d) as [[c |] | e]; simpl in *; try discriminate.
  by destruct c.
Qed.

(** No call of [replace_date_range] returns: [axes] is never updated. *)
Lemma replace_date_range_raises (d d' : DMDimensions.t coordinate)
    (new_range : option AbstractDateRange) :
  replace_date_range d new_range ≠ Ok d'.
Proof.
  destruct (is_static d) as [[] | e] eqn:Hs.
  - by rewrite replace_date_range_static.
  - by rewrite replace_date_range_not_static.
  - unfold replace_date_range. by rewrite Hs.
Qed.

(** C1, on the aggregate of a time, a latitude and a longitude dimension,
    which is not static: [replace_date_range] raises AttributeError at line
    242 instead of storing the new T coordinate. *)
Theorem replace_date_range_on_time_axis :
  ∃ d,
    DMDimensions.init axis [time_1980_1990; lat; lon] [] = Ok d
    ∧ is_static d = Ok false
    ∧ DMDimensions.T d = Ok (Some time_1980_1990)
    ∧ replace_date_range d (Some (DateRange 1990 2000))
      = Raise (AttributeError "T").
Proof.
  eexists. split; [reflexivity |].
  split; [reflexivity |]. split; [reflexivity |].
  by apply replace_date_range_not_static.
Qed.

(** ** Equality *)

Lemma py_eq_refl (distinct_eq : pyval → pyval → bool) (v : pyval) :
  py_eq distinct_eq v v = true.
Proof. unfold py_eq. by rewrite bool_decide_eq_true_2. Qed.

Lemma py_eq_of_option_range (distinct_eq : pyval → pyval → bool)
    (r1 r2 : option AbstractDateRange) :
  r1 ≠ r2 →
  py_eq distinct_eq (of_option PRange r1) (of_option PRange r2) = false.
Proof.
  intros Hne. unfold py_eq. rewrite bool_decide_eq_false_2.
  - by destruct r1, r2.
  - destruct r1, r2; simpl; congruence.
Qed.

(** C8: two ParametricVertical coordinates with the same fields but
    [formula_terms] compare equal, and two Time coordinates with the same
    fields but different [range] compare unequal. *)
Theorem coordinate_eq_fields (distinct_eq : pyval → pyval → bool) :
  (∀ a b : DMParametricVerticalCoordinate.t,
     name a = name b → standard_name a = standard_name b →
     units a = units b →
     DMParametricVerticalCoordinate.positive a
     = DMParametricVerticalCoordinate.positive b →
     bounds a = bounds b →
     DMParametricVerticalCoordinate.computed_standard_name a
     = DMParametricVerticalCoordinate.computed_standard_name b →
     DMParametricVerticalCoordinate.long_name a
     = DMParametricVerticalCoordinate.long_name b →
     coordinate_eq distinct_eq (ParametricVertical a) (ParametricVertical b)
     = true)
  ∧ (∀ a b : DMTimeCoordinate.t,
       name a = name b → units a = units b →
       DMTimeCoordinate.calendar a = DMTimeCoordinate.calendar b →
       DMTimeCoordinate.frequency a = DMTimeCoordinate.frequency b →
       bounds a = bounds b →
       DMTimeCoordinate.range a ≠ DMTimeCoordinate.range b →
       coordinate_eq distinct_eq (Time a) (Time b) = false).
Proof.
  split.
  - intros [] []; simpl. intros -> -> -> -> -> -> ->.
    unfold coordinate_eq. simpl. by rewrite !py_eq_refl.
  - intros [] []; simpl. intros -> -> -> -> -> Hne.
    unfold coordinate_eq. simpl.
    by rewrite !py_eq_refl, py_eq_of_option_range.
Qed.

Lemma coordinate_eq_fields_witness :
  coordinate_eq (λ _ _, false)
    (sigma (Some "sigma: lev ps: ps ptop: ptop")) (sigma (Some "sigma: lev"))
  = true
  ∧ coordinate_eq (λ _ _, true) time_1980_1990 time_1990_2000 = false.
Proof.
  split.
  - apply (proj1 (coordinate_eq_fields (λ _ _, false))); reflexivity.
  - apply (proj2 (coordinate_eq_fields (λ _ _, true)));
      try reflexivity; discriminate.
Defined.

(** ** Construction of coordinate bounds *)

Lemma init_raise_inv {A : Type} (axis : A → DMAxis.t)
    (dims scalar_coords : list A) (e : exn A) :
  DMDimensions.init axis dims scalar_coords = Raise e →
  duplicate_axis axis (dims ++ scalar_coords)
  ∧ ∃ c prev,
      e = ValueError (Duplicate_definition (DMAxis.name (axis c)) c prev).
Proof.
  unfold DMDimensions.init, DMDimensions.__post_init__. simpl. intros He.
  pose proof (check_duplicates_spec axis (dims ++ scalar_coords) [] ∅
                (records_empty axis)) as H.
  destruct (DMDimensions.check_duplicates axis ∅ _) as [t | e'];
    [discriminate |].
  injection He as <-.
  destruct H as (i & j & c & prev & -> & Hij & Hi & Hj & Hax & Hother).
  split; [| by eauto]. exists i, j, prev, c. simpl in *.
  repeat split; congruence.
Qed.

(** The constructor, step by step: the Dimensions validation, then the two
    checks on [scalar_coords] and [dims]. *)
Lemma bounds_init_unfold {A : Type} (axis : A → DMAxis.t)
    (dims scalar_coords : list A) (name standard_name units : string) :
  DMCoordinateBounds.init axis dims scalar_coords name standard_name units
  = (d ← DMDimensions.init axis dims scalar_coords;
     if bool_decide (scalar_coords ≠ [])
     then Raise (ValueError (With_scalar_coordinates name scalar_coords))
     else if bool_decide (length dims ≠ 2)
             || bool_decide (DMAxis.BOUNDS ∉ (axis <$> dims))
     then Raise (ValueError (Improper_dimensions name dims))
     else Ok (DMAuxiliaryCoordinate.mk d name standard_name units)).
Proof.
  unfold DMCoordinateBounds.init, DMCoordinateBounds.__post_init__,
    DMAuxiliaryCoordinate.__post_init__, DMDimensions.init,
    DMDimensions.__post_init__.
  simpl. by destruct (DMDimensions.check_duplicates axis ∅ _).
Qed.

(** Two dims, one of them of kind BOUNDS, and no scalar coordinate: the
    constructor returns the bounds with the axis tables of these dims. *)
Lemma bounds_init_ok {A : Type} (axis : A → DMAxis.t) (a b : A)
    (name standard_name units : string) :
  (axis a = DMAxis.BOUNDS ∧ axis b ≠ DMAxis.BOUNDS)
  ∨ (axis a ≠ DMAxis.BOUNDS ∧ axis b = DMAxis.BOUNDS) →
  DMCoordinateBounds.init axis [a; b] [] name standard_name units
  = Ok (DMAuxiliaryCoordinate.mk
          (DMDimensions.mk [a; b] []
             (DMDimensions.assign_axes axis DMDimensions.empty_axes [a; b])
             (DMDimensions.assign_axes axis DMDimensions.empty_axes [a; b]))
          name standard_name units).
Proof.
  intros Hone. rewrite bounds_init_unfold, init_ok.
  - simpl.
    rewrite (bool_decide_eq_false_2 (DMAxis.BOUNDS ∉ _)); [done |].
    intros Hnot. apply Hnot. rewrite !elem_of_cons.
    destruct Hone as [[-> _] | [_ ->]]; auto.
  - intros (i & j & c1 & c2 & Hij & H1 & H2 & Hax & _).
    destruct i as [| [| i]], j as [| [| j]]; simpl in *;
      try discriminate; try lia.
    injection H1 as <-. injection H2 as <-.
    destruct Hone as [[? ?] | [? ?]]; congruence.
Qed.

(** C7, as the code has it: when [scalar_coords] is not empty, or [dims]
    has not two members, or no member of [dims] is of kind BOUNDS,
    construction fails; the error is the duplicate-axis error of the
    Dimensions validation, which runs first, when two entries share an axis
    kind other than OTHER, and a malformed-bounds error otherwise.  With two
    dims, one of them of kind BOUNDS, and no scalar coordinate, construction
    succeeds. *)
Theorem bounds_construction {A : Type} (axis : A → DMAxis.t)
    (dims scalar_coords : list A) (name standard_name units : string) :
  (scalar_coords ≠ [] ∨ length dims ≠ 2 ∨ DMAxis.BOUNDS ∉ (axis <$> dims) →
   (duplicate_axis axis (dims ++ scalar_coords)
    ∧ ∃ c prev,
        DMCoordinateBounds.init axis dims scalar_coords name standard_name units
        = Raise (ValueError
                   (Duplicate_definition (DMAxis.name (axis c)) c prev)))
   ∨ (¬ duplicate_axis axis (dims ++ scalar_coords)
      ∧ ∃ e,
          DMCoordinateBounds.init axis dims scalar_coords name standard_name
            units = Raise e
          ∧ malformed_bounds e))
  ∧ (scalar_coords = [] → length dims = 2 →
     length (filter (λ c, axis c = DMAxis.BOUNDS) dims) = 1 →
     ∃ b,
       DMCoordinateBounds.init axis dims scalar_coords name standard_name units
       = Ok b
       ∧ DMDimensions.dims (DMAuxiliaryCoordinate.dimensions b) = dims
       ∧ DMDimensions.scalar_coords (DMAuxiliaryCoordinate.dimensions b) = []
       ∧ DMAuxiliaryCoordinate.name b = name
       ∧ DMAuxiliaryCoordinate.standard_name b = standard_name
       ∧ DMAuxiliaryCoordinate.units b = units).
Proof.
  split.
  - intros Hbad. rewrite bounds_init_unfold.
    destruct (DMDimensions.init axis dims scalar_coords) as [d | e] eqn:Hd.
    + right. apply init_ok_inv in Hd as [Hno _]. split; [done |]. simpl.
      case_bool_decide as Hsc; [by eexists |].
      destruct (bool_decide (length dims ≠ 2) || _) eqn:Hdims; [by eexists |].
      apply orb_false_elim in Hdims as [Hlen Hb].
      apply bool_decide_eq_false in Hlen, Hb.
      destruct Hbad as [? | [? | ?]]; done.
    + left. apply init_raise_inv in Hd as [Hdup (c & prev & ->)].
      split; [done |]. by exists c, prev.
  - intros -> Hlen Hone.
    destruct dims as [| a [| b [| ? ?]]]; try discriminate.
    eexists. split; [apply bounds_init_ok | done]. simpl in Hone.
    rewrite !filter_cons, filter_nil in Hone.
    destruct (decide (axis a = DMAxis.BOUNDS)),
             (decide (axis b = DMAxis.BOUNDS)); simpl in Hone;
      try discriminate; auto.
Qed.

Lemma bounds_construction_witness :
  ((¬ duplicate_axis axis ([lat; lon; lat_bnds] ++ [])
    ∧ ∃ e,
        DMCoordinateBounds.init axis [lat; lon; lat_bnds] [] "lat_bnds"
          "latitude" "degrees_N" = Raise e
        ∧ malformed_bounds e))
  ∧ ∃ b,
      DMCoordinateBounds.init axis [lat; lat_bnds] [] "lat_bnds" "latitude"
        "degrees_N" = Ok b
      ∧ DMDimensions.dims (DMAuxiliaryCoordinate.dimensions b) = [lat; lat_bnds]
      ∧ DMDimensions.scalar_coords (DMAuxiliaryCoordinate.dimensions b) = []
      ∧ DMAuxiliaryCoordinate.name b = "lat_bnds"
      ∧ DMAuxiliaryCoordinate.standard_name b = "latitude"
      ∧ DMAuxiliaryCoordinate.units b = "degrees_N".
Proof.
  split.
  - destruct (proj1 (bounds_construction axis [lat; lon; lat_bnds] []
                       "lat_bnds" "latitude" "degrees_N"))
      as [[_ (c & prev & H)] | H].
    + right. left. simpl. lia.
    + discriminate H.
    + exact H.
  - apply (proj2 (bounds_construction axis [lat; lat_bnds] []
                    "lat_bnds" "latitude" "degrees_N")); reflexivity.
Defined.

(** The claim of C7 fails on two latitude dims: neither is of kind BOUNDS,
    and the error raised is the duplicate-axis error of the Dimensions
    validation, not a malformed-bounds error. *)
Lemma bounds_duplicate_axis_first :
  (DMAxis.BOUNDS ∉ (axis <$> [lat; rlat]))
  ∧ DMCoordinateBounds.init axis [lat; rlat] [] "lat_bnds" "latitude"
      "degrees_N"
    = Raise (ValueError (Duplicate_definition "Y" rlat lat))
  ∧ ¬ ∃ e,
        DMCoordinateBounds.init axis [lat; rlat] [] "lat_bnds" "latitude"
          "degrees_N" = Raise e
        ∧ malformed_bounds e.
Proof.
  split; [| split].
  - simpl. rewrite !elem_of_cons, elem_of_nil. intros [? | [? | []]]; discriminate.
  - reflexivity.
  - intros (e & He & Hm). vm_compute in He. injection He as <-. exact Hm.
Qed.

(** ** The coordinate bounds factory *)

Lemma bounds_set_bounds (c : coordinate) (b : pyval) :
  bounds (set_bounds c b) = b.
Proof. by destruct c. Qed.

Lemma set_bounds_interface (c : coordinate) (b : pyval) :
  name (set_bounds c b) = name c
  ∧ standard_name (set_bounds c b) = standard_name c
  ∧ units (set_bounds c b) = units c
  ∧ axis (set_bounds c b) = axis c
  ∧ coordinate_class (set_bounds c b) = coordinate_class c.
Proof. by destruct c. Qed.

Lemma set_bounds_set_bounds (c : coordinate) (b b' : pyval) :
  set_bounds (set_bounds c b) b' = set_bounds c b'.
Proof. by destruct c as [[] | [] | [] | [] | [] | [] | [] | [] | []]. Qed.

Lemma fresh_lookup (h : heap) : h !! fresh (dom h) = None.
Proof. apply not_elem_of_dom, is_fresh. Qed.

Lemma fresh_ne (h : heap) (l : loc) (o : object) :
  h !! l = Some o → fresh (dom h) ≠ l.
Proof. intros Hl Heq. rewrite <- Heq, fresh_lookup in Hl. discriminate. Qed.

(** The factory on a coordinate that is not of kind BOUNDS, given the name
    of the bounds dimension: it allocates the bounds dimension [bd] and the
    bounds [r], and stores the reference [r] in [coord.bounds]. *)
Lemma bounds_from_coordinate_ok (h : heap) (coord : loc) (c : coordinate)
    (s : string) :
  h !! coord = Some (OCoordinate c) → axis c ≠ DMAxis.BOUNDS →
  let bd := fresh (dom h) in
  let h1 := <[bd := OCoordinate (BoundsDimension (DMBoundsDimension.init s))]> h in
  let r := fresh (dom h1) in
  let b :=
    DMAuxiliaryCoordinate.mk
      (DMDimensions.mk [coord; bd] []
         (DMDimensions.assign_axes (heap_axis h1) DMDimensions.empty_axes
            [coord; bd])
         (DMDimensions.assign_axes (heap_axis h1) DMDimensions.empty_axes
            [coord; bd]))
      (name c) (standard_name c) (units c) in
  DMCoordinateBounds_from_coordinate h coord (PStr s)
  = Ok (<[coord := OCoordinate (set_bounds c (PRef r))]>
          (<[r := OCoordinateBounds b]> h1), r)
  ∧ bd ≠ coord ∧ r ≠ coord ∧ r ≠ bd ∧ h !! bd = None ∧ h !! r = None.
Proof.
  intros Hc Hax bd h1 r b.
  assert (Hbd : bd ≠ coord) by by eapply fresh_ne.
  assert (Hc1 : h1 !! coord = Some (OCoordinate c))
    by by (unfold h1; rewrite lookup_insert_ne).
  assert (Hbd1 : h1 !! bd
                 = Some (OCoordinate (BoundsDimension (DMBoundsDimension.init s))))
    by by (unfold h1; rewrite lookup_insert_eq).
  assert (Hr : h1 !! r = None) by apply fresh_lookup.
  assert (Hrb : r ≠ bd) by by eapply fresh_ne.
  split; [| repeat split].
  - unfold DMCoordinateBounds_from_coordinate, deref. rewrite Hc. simpl.
    fold bd h1.
    rewrite bounds_init_ok; [done |].
    right. unfold heap_axis. rewrite Hc1, Hbd1. done.
  - done.
  - by eapply fresh_ne.
  - done.
  - apply fresh_lookup.
  - unfold h1 in Hr. by rewrite lookup_insert_ne in Hr.
Qed.

(** C6: for a coordinate object [c] at [coord] that is not of kind BOUNDS
    and a name [s], the factory succeeds.  The bounds object it returns has
    [c]'s [name], [standard_name] and [units], no scalar coordinates, and the
    dims [(coord, bd)] with [bd] a reference that is free before the call
    and holds afterwards a DMBoundsDimension [d] whose [name] is [s], whose
    [bounds] is None and whose axis kind is BOUNDS; its
    [coord] property is the reference [coord]; afterwards [c] is unchanged
    but for [c.bounds], which is the returned reference, and all other
    objects of the heap are unchanged. *)
Theorem bounds_from_coordinate (h : heap) (coord : loc) (c : coordinate)
    (s : string) :
  h !! coord = Some (OCoordinate c) → axis c ≠ DMAxis.BOUNDS →
  ∃ h' r bd b d,
    DMCoordinateBounds_from_coordinate h coord (PStr s) = Ok (h', r)
    ∧ h' !! r = Some (OCoordinateBounds b)
    ∧ DMAuxiliaryCoordinate.name b = name c
    ∧ DMAuxiliaryCoordinate.standard_name b = standard_name c
    ∧ DMAuxiliaryCoordinate.units b = units c
    ∧ DMDimensions.dims (DMAuxiliaryCoordinate.dimensions b) = [coord; bd]
    ∧ DMDimensions.scalar_coords (DMAuxiliaryCoordinate.dimensions b) = []
    ∧ h !! bd = None
    ∧ h' !! bd = Some (OCoordinate (BoundsDimension d))
    ∧ d = DMBoundsDimension.init s
    ∧ DMBoundsDimension.name d = s
    ∧ DMBoundsDimension.bounds d = PNone
    ∧ name (BoundsDimension d) = s
    ∧ axis (BoundsDimension d) = DMAxis.BOUNDS
    ∧ DMCoordinateBounds.coord (heap_axis h') b = Ok coord
    ∧ h' !! coord = Some (OCoordinate (set_bounds c (PRef r)))
    ∧ bounds (set_bounds c (PRef r)) = PRef r
    ∧ ∀ l o, l ≠ coord → h !! l = Some o → h' !! l = Some o.
Proof.
  intros Hc Hax.
  destruct (bounds_from_coordinate_ok h coord c s Hc Hax)
    as (Hok & Hbd & Hr & Hrb & Hbdh & Hrh).
  eexists _, _, _, _, _. split; [exact Hok |].
  split; [by rewrite lookup_insert_ne, lookup_insert_eq by congruence |].
  do 5 (split; [done |]). split; [done |].
  split; [by rewrite !lookup_insert_ne, lookup_insert_eq by congruence |].
  do 5 (split; [reflexivity |]).
  split.
  { unfold DMCoordinateBounds.coord. simpl.
    rewrite bool_decide_eq_true_2; [done |].
    unfold heap_axis. rewrite lookup_insert_eq.
    by rewrite (proj1 (proj2 (proj2 (proj2 (set_bounds_interface c _))))). }
  split; [by rewrite lookup_insert_eq |].
  split; [apply bounds_set_bounds |].
  intros l o Hl Hlo.
  rewrite lookup_insert_ne by done.
  rewrite lookup_insert_ne by (intros <-; congruence).
  rewrite lookup_insert_ne by (intros <-; congruence). done.
Qed.

Lemma bounds_from_coordinate_witness :
  ∃ h' r bd b d,
    DMCoordinateBounds_from_coordinate heap_latitude 1%positive
      (PStr "lat_bnds") = Ok (h', r)
    ∧ h' !! r = Some (OCoordinateBounds b)
    ∧ DMAuxiliaryCoordinate.name b = name latitude
    ∧ DMAuxiliaryCoordinate.standard_name b = standard_name latitude
    ∧ DMAuxiliaryCoordinate.units b = units latitude
    ∧ DMDimensions.dims (DMAuxiliaryCoordinate.dimensions b) = [1%positive; bd]
    ∧ DMDimensions.scalar_coords (DMAuxiliaryCoordinate.dimensions b) = []
    ∧ heap_latitude !! bd = None
    ∧ h' !! bd = Some (OCoordinate (BoundsDimension d))
    ∧ d = DMBoundsDimension.init "lat_bnds"
    ∧ DMBoundsDimension.name d = "lat_bnds"
    ∧ DMBoundsDimension.bounds d = PNone
    ∧ name (BoundsDimension d) = "lat_bnds"
    ∧ axis (BoundsDimension d) = DMAxis.BOUNDS
    ∧ DMCoordinateBounds.coord (heap_axis h') b = Ok 1%positive
    ∧ h' !! 1%positive = Some (OCoordinate (set_bounds latitude (PRef r)))
    ∧ bounds (set_bounds latitude (PRef r)) = PRef r
    ∧ ∀ l o, l ≠ 1%positive → heap_latitude !! l = Some o → h' !! l = Some o.
Proof.
  apply (bounds_from_coordinate heap_latitude 1%positive latitude "lat_bnds").
  - reflexivity.
  - discriminate.
Defined.

(** *** The factory does not read [coord.bounds] *)

Section AxisExtensionality.
Context {A : Type} (axis1 axis2 : A → DMAxis.t).
Hypothesis same_axis : ∀ c, axis1 c = axis2 c.

Lemma check_duplicates_ext (chain : list A) (temp_d : gmap string A) :
  DMDimensions.check_duplicates axis1 temp_d chain
  = DMDimensions.check_duplicates axis2 temp_d chain.
Proof.
  revert temp_d. induction chain as [| c chain IH]; intros temp_d; [done |].
  simpl. unfold DMDimensions.axis_name. rewrite same_axis.
  case_match; [done | apply IH].
Qed.

Lemma assign_axes_ext (cs : list A) (d : gmap string (option A)) :
  DMDimensions.assign_axes axis1 d cs = DMDimensions.assign_axes axis2 d cs.
Proof.
  unfold DMDimensions.assign_axes.
  revert d. induction cs as [| c cs IH]; intros d; [done |].
  simpl. rewrite IH. f_equal.
  unfold DMDimensions.assign_axis, DMDimensions.axis_name.
  by rewrite same_axis.
Qed.

Lemma dimensions_init_ext (dims scalar_coords : list A) :
  DMDimensions.init axis1 dims scalar_coords
  = DMDimensions.init axis2 dims scalar_coords.
Proof.
  unfold DMDimensions.init, DMDimensions.__post_init__. simpl.
  by rewrite check_duplicates_ext, !assign_axes_ext.
Qed.

Lemma bounds_init_ext (dims scalar_coords : list A)
    (name standard_name units : string) :
  DMCoordinateBounds.init axis1 dims scalar_coords name standard_name units
  = DMCoordinateBounds.init axis2 dims scalar_coords name standard_name units.
Proof.
  rewrite !bounds_init_unfold, dimensions_init_ext.
  by rewrite (list_fmap_ext axis1 axis2 dims) by auto.
Qed.

End AxisExtensionality.

Lemma heap_axis_set_bounds (h : heap) (coord : loc) (c : coordinate)
    (b : pyval) (l : loc) :
  h !! coord = Some (OCoordinate c) →
  heap_axis (<[coord := OCoordinate (set_bounds c b)]> h) l = heap_axis h l.
Proof.
  intros Hc. unfold heap_axis.
  destruct (decide (coord = l)) as [<- | Hne].
  - rewrite lookup_insert_eq, Hc. apply set_bounds_interface.
  - by rewrite lookup_insert_ne.
Qed.

Lemma dom_set_bounds (h : heap) (coord : loc) (c c' : coordinate) :
  h !! coord = Some (OCoordinate c) →
  dom (<[coord := OCoordinate c']> h) = dom h.
Proof.
  intros Hc. apply dom_insert_lookup_L. eauto.
Qed.

Lemma bounds_dimension_set_bounds (h : heap) (coord : loc) (c : coordinate)
    (b bounds_dim : pyval) :
  h !! coord = Some (OCoordinate c) →
  match bounds_dimension h bounds_dim with
  | Ok (h1, bd) =>
      bounds_dimension (<[coord := OCoordinate (set_bounds c b)]> h) bounds_dim
      = Ok (<[coord := OCoordinate (set_bounds c b)]> h1, bd)
      ∧ h1 !! coord = Some (OCoordinate c)
  | Raise e =>
      bounds_dimension (<[coord := OCoordinate (set_bounds c b)]> h) bounds_dim
      = Raise e
  end.
Proof.
  intros Hc. destruct bounds_dim as [| s | | | | | l | | | |]; try done.
  - simpl. rewrite (dom_set_bounds h coord c) by done.
    pose proof (fresh_ne h coord _ Hc) as Hne.
    split; [| by rewrite lookup_insert_ne].
    by rewrite insert_insert_ne.
  - simpl. destruct (decide (coord = l)) as [<- | Hne].
    + rewrite lookup_insert_eq, Hc. by destruct c.
    + rewrite lookup_insert_ne by done.
      by destruct (h !! l) as [[[] | |] |].
Qed.

(** The outcome of the factory is the same whatever [coord.bounds] holds
    before the call. *)
Lemma bounds_from_coordinate_set_bounds (h : heap) (coord : loc)
    (c : coordinate) (b bounds_dim : pyval) :
  h !! coord = Some (OCoordinate c) →
  DMCoordinateBounds_from_coordinate
    (<[coord := OCoordinate (set_bounds c b)]> h) coord bounds_dim
  = DMCoordinateBounds_from_coordinate h coord bounds_dim.
Proof.
  intros Hc. unfold DMCoordinateBounds_from_coordinate, deref.
  rewrite lookup_insert_eq, Hc. simpl.
  destruct (set_bounds_interface c b) as (Hn & Hs & Hu & _).
  simpl in Hn, Hs, Hu. rewrite Hn, Hs, Hu.
  pose proof (bounds_dimension_set_bounds h coord c b bounds_dim Hc) as Hbd.
  destruct (bounds_dimension h bounds_dim) as [[h1 bd] | e];
    [destruct Hbd as [-> Hc1] | by rewrite Hbd].
  simpl.
  rewrite (bounds_init_ext (heap_axis (<[coord := _]> h1)) (heap_axis h1))
    by (intros l; by apply heap_axis_set_bounds).
  destruct (DMCoordinateBounds.init (heap_axis h1) _ _ _ _ _) as [cb | e];
    [| done].
  simpl. rewrite (dom_set_bounds h1 coord c) by done.
  pose proof (fresh_ne h1 coord _ Hc1) as Hne.
  do 2 f_equal.
  rewrite set_bounds_set_bounds.
  rewrite (insert_insert_ne _ (fresh (dom h1)) coord) by done.
  by rewrite insert_insert_eq.
Qed.

Lemma bounds_dimension_extends (h h1 : heap) (bounds_dim : pyval) (bd : loc) :
  bounds_dimension h bounds_dim = Ok (h1, bd) →
  ∀ l o, h !! l = Some o → h1 !! l = Some o.
Proof.
  destruct bounds_dim as [| s | | | | | l' | | | |]; try discriminate; simpl.
  - intros [= <- <-] l o Hl.
    by rewrite lookup_insert_ne by by eapply fresh_ne.
  - destruct (h !! l') as [[[] | |] |]; try discriminate.
    by intros [= <- <-].
Qed.

(** A call that returns has stored a new bounds object and its reference in
    [coord.bounds], and has left every other object as it was. *)
Lemma bounds_from_coordinate_inv (h h' : heap) (coord r : loc)
    (c : coordinate) (bounds_dim : pyval) :
  h !! coord = Some (OCoordinate c) →
  DMCoordinateBounds_from_coordinate h coord bounds_dim = Ok (h', r) →
  h !! r = None
  ∧ (∃ b, h' !! r = Some (OCoordinateBounds b))
  ∧ h' !! coord = Some (OCoordinate (set_bounds c (PRef r)))
  ∧ ∀ l o, l ≠ coord → h !! l = Some o → h' !! l = Some o.
Proof.
  intros Hc. unfold DMCoordinateBounds_from_coordinate, deref.
  rewrite Hc. simpl.
  destruct (bounds_dimension h bounds_dim) as [[h1 bd] | e] eqn:Hbd;
    [| discriminate].
  simpl.
  destruct (DMCoordinateBounds.init (heap_axis h1) _ _ _ _ _) as [cb | e];
    [| discriminate].
  simpl. intros [= <- <-].
  pose proof (bounds_dimension_extends _ _ _ _ Hbd) as Hext.
  pose proof (fresh_lookup h1) as Hr.
  assert (Hrh : h !! fresh (dom h1) = None).
  { destruct (h !! fresh (dom h1)) as [o |] eqn:Ho; [| done].
    apply Hext in Ho. congruence. }
  split; [done |].
  split; [rewrite lookup_insert_ne, lookup_insert_eq by congruence; eauto |].
  split; [by rewrite lookup_insert_eq |].
  intros l o Hl Hlo.
  rewrite !lookup_insert_ne by congruence. by apply Hext.
Qed.

(** C10: the factory gives the same outcome whatever [c.bounds] holds, so
    it does not fail on account of a link; given a name and a coordinate not
    of kind BOUNDS it succeeds; and when [c.bounds] refers to an earlier
    bounds object, every call that returns has made [c.bounds] the reference
    of the new bounds object, which is not the earlier one, and has left the
    earlier object as it was. *)
Theorem bounds_from_coordinate_relinks (h : heap) (coord : loc)
    (c : coordinate) :
  h !! coord = Some (OCoordinate c) →
  (∀ b bounds_dim,
     DMCoordinateBounds_from_coordinate
       (<[coord := OCoordinate (set_bounds c b)]> h) coord bounds_dim
     = DMCoordinateBounds_from_coordinate h coord bounds_dim)
  ∧ (∀ s, axis c ≠ DMAxis.BOUNDS →
       ∃ h' r, DMCoordinateBounds_from_coordinate h coord (PStr s) = Ok (h', r))
  ∧ (∀ old b_old bounds_dim h' r,
       bounds c = PRef old → h !! old = Some (OCoordinateBounds b_old) →
       DMCoordinateBounds_from_coordinate h coord bounds_dim = Ok (h', r) →
       r ≠ old
       ∧ (∃ b, h' !! r = Some (OCoordinateBounds b))
       ∧ h' !! coord = Some (OCoordinate (set_bounds c (PRef r)))
       ∧ bounds (set_bounds c (PRef r)) = PRef r
       ∧ h' !! old = Some (OCoordinateBounds b_old)).
Proof.
  intros Hc. split; [| split].
  - intros b bounds_dim. by apply bounds_from_coordinate_set_bounds.
  - intros s Hax.
    destruct (bounds_from_coordinate_ok h coord c s Hc Hax) as [Hok _].
    eauto.
  - intros old b_old bounds_dim h' r Hb Hold Hok.
    destruct (bounds_from_coordinate_inv _ _ _ _ _ _ Hc Hok)
      as (Hr & Hnew & Hcoord & Hrest).
    split; [congruence |]. split; [done |]. split; [done |].
    split; [apply bounds_set_bounds |].
    apply Hrest; [congruence | done].
Qed.

Lemma bounds_from_coordinate_relinks_witness :
  (∀ b bounds_dim,
     DMCoordinateBounds_from_coordinate
       (<[1%positive := OCoordinate
                          (set_bounds (set_bounds latitude (PRef 3%positive)) b)]>
          heap_latitude_bounds) 1%positive bounds_dim
     = DMCoordinateBounds_from_coordinate heap_latitude_bounds 1%positive
         bounds_dim)
  ∧ ∃ h' r,
      DMCoordinateBounds_from_coordinate heap_latitude_bounds 1%positive
        (PStr "bnds") = Ok (h', r)
      ∧ r ≠ 3%positive
      ∧ (∃ b, h' !! r = Some (OCoordinateBounds b))
      ∧ h' !! 1%positive
        = Some (OCoordinate
                  (set_bounds (set_bounds latitude (PRef 3%positive)) (PRef r)))
      ∧ bounds (set_bounds (set_bounds latitude (PRef 3%positive)) (PRef r))
        = PRef r
      ∧ heap_latitude_bounds !! 3%positive = h' !! 3%positive.
Proof.
  destruct (bounds_from_coordinate_relinks heap_latitude_bounds 1%positive
              (set_bounds latitude (PRef 3%positive)) eq_refl)
    as (Hsame & Hok & Hnew).
  split; [exact Hsame |].
  destruct (Hok "bnds") as (h' & r & Hr); [discriminate |].
  exists h', r. split; [exact Hr |].
  destruct (Hnew 3%positive _ (PStr "bnds") h' r eq_refl eq_refl Hr)
    as (? & ? & ? & ? & ->).
  done.
Defined.

(** ** The scalar coordinate factory *)

Lemma mapM_raise {E R S : Type} (f : R → result E S) (pre post : list R)
    (x : R) (e : E) :
  Forall (λ y, f y = Raise e ∨ ∃ z, f y = Ok z) pre →
  f x = Raise e →
  mapM f (pre ++ x :: post) = Raise e.
Proof.
  intros Hpre Hx.
  induction Hpre as [| y pre [Hy | [z Hy]] _ IH]; simpl.
  - by rewrite Hx.
  - by rewrite Hy.
  - by rewrite Hy; simpl; rewrite IH.
Qed.

Lemma asdict_inner_atom (fuel : nat) (h : heap) (v : pyval) :
  is_atom v = true →
  asdict_inner fuel h v = Raise RecursionError
  ∨ ∃ w, asdict_inner fuel h v = Ok w.
Proof. destruct fuel; [by left |]. destruct v; try done; by right; eexists. Qed.

Lemma is_atom_of_option {V : Type} (f : V → pyval) (o : option V) :
  (∀ v, is_atom (f v) = true) → is_atom (of_option f o) = true.
Proof. intros Hf. destruct o; [apply Hf | done]. Qed.

(** Every coordinate class but [DMBoundsDimension] has the field [bounds],
    after fields that hold strings, numbers, axis kinds, ranges,
    frequencies or [None]. *)
Lemma coordinate_fields_bounds (c : coordinate) :
  coordinate_class c ≠ DMBoundsDimension_class →
  ∃ pre post,
    coordinate_fields c = pre ++ ("bounds", bounds c) :: post
    ∧ Forall (λ kv, is_atom kv.2 = true) pre.
Proof.
  intros Hcls.
  destruct c as [c | c | c | c | c | c | c | c | c]; simpl;
    [ eexists [_; _; _; _], [] | eexists [_], [] | eexists [_], []
    | eexists [_; _; _; _], [] | eexists [_; _; _; _], [_; _; _]
    | eexists [_; _; _; _; _], [] | done
    | eexists [_; _; _; _; _], [] | eexists [_; _; _; _; _], [] ];
    (split; [reflexivity |]);
    repeat constructor; by apply is_atom_of_option.
Qed.

(** [asdict] on a coordinate that its own bounds object has as first
    dimension never returns: it comes back to the coordinate with less fuel
    each time round, and stops when the fuel is spent. *)
Lemma asdict_inner_cycle (h : heap) (coord b : loc) (c : coordinate)
    (cb : DMCoordinateBounds.t loc) (rest : list loc) :
  h !! coord = Some (OCoordinate c) →
  coordinate_class c ≠ DMBoundsDimension_class →
  bounds c = PRef b →
  h !! b = Some (OCoordinateBounds cb) →
  DMDimensions.dims (DMAuxiliaryCoordinate.dimensions cb) = coord :: rest →
  ∀ fuel, asdict_inner fuel h (PRef coord) = Raise RecursionError.
Proof.
  intros Hc Hcls Hb Hcb Hdims fuel.
  induction fuel as [fuel IH] using lt_wf_ind.
  destruct fuel as [| fuel]; [done |].
  simpl. unfold deref. rewrite Hc. simpl.
  destruct (coordinate_fields_bounds c Hcls) as (pre & post & -> & Hpre).
  rewrite (mapM_raise _ pre post _ RecursionError); [done | |].
  - eapply Forall_impl; [exact Hpre |]. intros [k v] Hv. simpl in *.
    destruct (asdict_inner_atom fuel h v Hv) as [-> | [w ->]];
      [by left | right; by eexists].
  - simpl. simpl in Hb. rewrite Hb.
    destruct fuel as [| fuel]; [done |].
    simpl. unfold deref. rewrite Hcb. simpl. rewrite Hdims.
    destruct fuel as [| fuel]; [done |].
    simpl. rewrite IH by lia. done.
Qed.

Lemma scalar_from_coordinate_cycle (cls : scalar_class) (h : heap)
    (coord b : loc) (c : coordinate) (cb : DMCoordinateBounds.t loc)
    (rest : list loc) (fuel : nat) (value : option number) :
  h !! coord = Some (OCoordinate c) →
  issubclass (class_of_scalar cls) (coordinate_class c) = true →
  bounds c = PRef b →
  h !! b = Some (OCoordinateBounds cb) →
  DMDimensions.dims (DMAuxiliaryCoordinate.dimensions cb) = coord :: rest →
  DMScalarCoordinateMixin_from_coordinate cls fuel h coord value
  = Raise RecursionError.
Proof.
  intros Hc Hsub Hb Hcb Hdims.
  unfold DMScalarCoordinateMixin_from_coordinate, deref. rewrite Hc. simpl.
  rewrite Hsub. simpl. unfold asdict.
  rewrite (asdict_inner_cycle h coord b c cb rest); try done.
  intros Hcls. by destruct c, cls.
Qed.

(** The factory on a coordinate without bounds: the new scalar coordinate
    has the field values of the coordinate and the value given, and the heap
    is extended by it and otherwise unchanged. *)
Lemma scalar_from_coordinate_unbounded (h : heap) (coord : loc)
    (c : DMCoordinate.t) (fuel : nat) (value : option number) :
  h !! coord = Some (OCoordinate (Coordinate c)) → bounds c = PNone →
  DMScalarCoordinateMixin_from_coordinate DMScalarCoordinate (S (S fuel)) h
    coord value
  = Ok (<[fresh (dom h) :=
            OCoordinate (ScalarCoordinate
              (DMScalarCoordinate.mk value (name c) (standard_name c)
                 (units c) (axis c) (bounds c)))]> h,
        fresh (dom h)).
Proof.
  intros Hc Hb. destruct c as [n sn u a b]. simpl in *. subst b.
  unfold DMScalarCoordinateMixin_from_coordinate, deref. rewrite Hc.
  simpl. unfold asdict. simpl. unfold deref. rewrite Hc. by destruct value.
Qed.

Lemma scalar_vertical_from_coordinate_unbounded (h : heap) (coord : loc)
    (c : DMVerticalCoordinate.t) (fuel : nat) (value : option number) :
  h !! coord = Some (OCoordinate (Vertical c)) → bounds c = PNone →
  DMScalarCoordinateMixin_from_coordinate DMScalarVerticalCoordinate
    (S (S fuel)) h coord value
  = Ok (<[fresh (dom h) :=
            OCoordinate (ScalarVertical
              (DMScalarVerticalCoordinate.mk value (name c) (standard_name c)
                 (units c) (DMVerticalCoordinate.positive c) (bounds c)))]> h,
        fresh (dom h)).
Proof.
  intros Hc Hb. destruct c as [n sn u p b]. simpl in *. subst b.
  unfold DMScalarCoordinateMixin_from_coordinate, deref. rewrite Hc.
  simpl. unfold asdict. simpl. unfold deref. rewrite Hc. by destruct value.
Qed.

(** C5, on the latitude coordinate after
    [DMCoordinateBounds.from_coordinate(latitude, "lat_bnds")] has linked
    its bounds: [DMScalarCoordinate.from_coordinate] raises RecursionError,
    whatever the recursion limit and the value, instead of returning a
    scalar coordinate with the fields of the latitude. *)
Theorem scalar_from_coordinate_with_bounds :
  ∃ h r,
    DMCoordinateBounds_from_coordinate heap_latitude 1%positive
      (PStr "lat_bnds") = Ok (h, r)
    ∧ h !! 1%positive = Some (OCoordinate (set_bounds latitude (PRef r)))
    ∧ ∀ fuel value,
        DMScalarCoordinateMixin_from_coordinate DMScalarCoordinate fuel h
          1%positive value
        = Raise RecursionError.
Proof.
  eexists _, _. split; [reflexivity |]. split; [reflexivity |].
  intros fuel value.
  by eapply (scalar_from_coordinate_cycle DMScalarCoordinate _ 1%positive
               3%positive).
Qed.

Lemma asdict_inner_ref (fuel : nat) (h : heap) (l : loc) (o : object) :
  h !! l = Some o →
  asdict_inner (S fuel) h (PRef l)
  = (kvs ← mapM (λ kv, w ← asdict_inner fuel h kv.2; Ok (kv.1, w))
             (object_fields o);
     Ok (PDict kvs)).
Proof. intros Hl. simpl. unfold deref. by rewrite Hl. Qed.

(** Whenever the coordinate holds a reference in [bounds], a call that
    returns gives a scalar coordinate whose [bounds] is the dict that
    [asdict] made of the bounds object, not the reference. *)
Lemma scalar_from_coordinate_linked (cls : scalar_class) (fuel : nat)
    (h h' : heap) (coord b l : loc) (c : coordinate) (value : option number) :
  h !! coord = Some (OCoordinate c) → bounds c = PRef b →
  DMScalarCoordinateMixin_from_coordinate cls fuel h coord value = Ok (h', l) →
  ∃ new kvs, h' !! l = Some (OCoordinate new) ∧ bounds new = PDict kvs.
Proof.
  intros Hc Hb.
  unfold DMScalarCoordinateMixin_from_coordinate, deref. rewrite Hc. simpl.
  destruct (issubclass _ _) eqn:Hsub; [| discriminate]. simpl.
  unfold asdict.
  destruct fuel as [| fuel]; [discriminate |].
  rewrite (asdict_inner_ref _ _ _ _ Hc).
  assert (Hatom : ∀ v, is_atom v = true →
                    asdict_inner fuel h v = Raise RecursionError
                    ∨ asdict_inner fuel h v = Ok (deepcopy v)).
  { intros v Hv. destruct fuel; [by left | right]. by destruct v. }
  assert (Hv : (∃ kvs, asdict_inner fuel h (PRef b) = Ok (PDict kvs))
               ∨ ∃ e, asdict_inner fuel h (PRef b) = Raise e).
  { destruct fuel; [by eauto |]. simpl.
    destruct (deref h b); simpl; [| by eauto].
    destruct (mapM _ _); simpl; eauto. }
  generalize dependent (asdict_inner fuel h). intros f Hatom Hv.
  destruct Hv as [[kvs Hv] | [e Hv]];
    destruct cls, c as [[] | [] | [] | [] | [] | [] | [] | [] | []];
    try discriminate Hsub; simpl in Hb; subst;
    repeat match goal with o : option _ |- _ => destruct o end; simpl;
    repeat match goal with
      | |- context [f ?v] =>
          lazymatch v with PRef _ => fail | _ => idtac end;
          destruct (Hatom v eq_refl) as [Hf | Hf]; rewrite Hf; clear Hf;
          simpl; [discriminate |]
      end;
    rewrite Hv; simpl; try discriminate;
    intros [= <- <-]; rewrite lookup_insert_eq; eauto.
Qed.

(** ** More on the axis tables of a Dimensions aggregate *)

Section TableFacts.
Context {A : Type} (axis : A → DMAxis.t).

Lemma duplicate_axis_cons (x : A) (l : list A) :
  duplicate_axis axis (x :: l)
  ↔ (axis x ≠ DMAxis.OTHER ∧ ∃ c, c ∈ l ∧ axis c = axis x)
    ∨ duplicate_axis axis l.
Proof.
  split.
  - intros (i & j & c1 & c2 & Hij & H1 & H2 & Hax & Hother).
    destruct j as [| j]; [lia |]. simpl in H2.
    destruct i as [| i]; simpl in H1.
    + injection H1 as <-. left. split; [done |].
      exists c2. split; [by eapply list_elem_of_lookup_2 | done].
    + right. exists i, j, c1, c2. repeat split; auto. lia.
  - intros [[Hother (c & [j Hj]%list_elem_of_lookup_1 & Hax)]
           | (i & j & c1 & c2 & Hij & H1 & H2 & Hax & Hother)].
    + exists 0, (S j), x, c. repeat split; auto. lia.
    + exists (S i), (S j), c1, c2. repeat split; auto. lia.
Qed.

Lemma duplicate_axis_perm (l l' : list A) :
  l ≡ₚ l' → duplicate_axis axis l → duplicate_axis axis l'.
Proof.
  induction 1 as [| x l l' Hp IH | x y l | l l' l'' _ IH1 _ IH2]; [done | | | auto].
  - rewrite !duplicate_axis_cons. intros [[Ho (c & Hc & Hax)] | Hd]; [left | auto].
    split; [done |]. exists c. by rewrite <- Hp.
  - rewrite !duplicate_axis_cons.
    intros [[Ho (c & Hc & Hax)] | [[Ho (c & Hc & Hax)] | Hd]]; [| | auto].
    + apply elem_of_cons in Hc as [-> | Hc].
      * left. split; [congruence |]. exists y. split; [left | done].
      * right. left. split; [done |]. by exists c.
    + left. split; [done |]. exists c. split; [by right | done].
Qed.

Lemma assign_axis_comm (d : gmap string (option A)) (x y : A) :
  ¬ (axis x = axis y ∧ axis x ≠ DMAxis.OTHER) →
  DMDimensions.assign_axis axis (DMDimensions.assign_axis axis d x) y
  = DMDimensions.assign_axis axis (DMDimensions.assign_axis axis d y) x.
Proof.
  intros Hne. apply map_eq. intros key. rewrite !assign_axis_lookup.
  repeat case_decide; try done.
  destruct Hne. destruct H as [Hst <-], H0 as [Hst' Hk%axis_name_inj].
  split; [done |]. by apply spatiotemporal_cases in Hst' as [_ ?].
Qed.

(** Without a duplicate axis, the table that a pass fills does not depend
    on the order of the coordinates. *)
Lemma assign_axes_perm (l l' : list A) :
  l ≡ₚ l' → ¬ duplicate_axis axis l →
  ∀ d, DMDimensions.assign_axes axis d l = DMDimensions.assign_axes axis d l'.
Proof.
  unfold DMDimensions.assign_axes.
  induction 1 as [| x l l' Hp IH | x y l | l l' l'' Hp IH1 _ IH2];
    intros Hno d; [done | | |].
  - simpl. apply IH. intros Hd. apply Hno, duplicate_axis_cons. auto.
  - simpl. f_equal. apply assign_axis_comm. intros [Hax Ho].
    apply Hno, duplicate_axis_cons. left. split; [congruence |].
    exists x. split; [left | done].
  - rewrite IH1 by done. apply IH2.
    intros Hd. apply Hno. by eapply duplicate_axis_perm.
Qed.

(** The slots of a table that a pass fills from a table with the four
    spatiotemporal keys. *)
Lemma assign_axes_keys (cs : list A) (d : gmap string (option A)) (key : string) :
  (is_Some (d !! key) ↔ key ∈ DMAxis.spatiotemporal_names) →
  (is_Some (DMDimensions.assign_axes axis d cs !! key)
   ↔ key ∈ DMAxis.spatiotemporal_names).
Proof.
  intros Hd. induction cs as [| c cs IH] using rev_ind; [done |].
  rewrite assign_axes_snoc, assign_axis_lookup. case_decide as Hk; [| done].
  destruct Hk as [Hst <-]. split; [done | by eexists].
Qed.

Lemma empty_axes_keys (key : string) :
  is_Some (DMDimensions.empty_axes (A := A) !! key)
  ↔ key ∈ DMAxis.spatiotemporal_names.
Proof.
  unfold DMDimensions.empty_axes, DMAxis.spatiotemporal_names. simpl.
  rewrite !elem_of_cons, elem_of_nil.
  split.
  - intros [v Hv]. rewrite !lookup_insert_Some, lookup_empty in Hv.
    repeat (destruct Hv as [[<- _] | [_ Hv]]; [auto 6 |]). done.
  - intros [-> | [-> | [-> | [-> | []]]]]; by eexists.
Qed.

(** A slot of [axes] that holds a coordinate holds an entry of [dims] under
    the name of its axis. *)
Lemma axes_lookup_dims (dims : list A) (key : string) (c : A) :
  DMDimensions.assign_axes axis DMDimensions.empty_axes dims !! key
  = Some (Some c) →
  c ∈ dims ∧ DMAxis.name (axis c) = key ∧ spatiotemporal (axis c).
Proof.
  intros [Hk | H]%assign_axes_lookup_Some; [| done].
  by apply empty_axes_lookup_Some in Hk.
Qed.

(** In a chain without duplicate axis, no scalar coordinate has the axis of
    a dimension of a kind other than OTHER. *)
Lemma no_duplicate_across (dims scalar_coords : list A) (c c' : A) :
  ¬ duplicate_axis axis (dims ++ scalar_coords) →
  c ∈ dims → c' ∈ scalar_coords → axis c ≠ DMAxis.OTHER →
  axis c' ≠ axis c.
Proof.
  intros Hno [i Hi]%list_elem_of_lookup_1 [j Hj]%list_elem_of_lookup_1 Ho Hax.
  apply Hno. exists i, (length dims + j), c, c'.
  pose proof (lookup_lt_Some _ _ _ Hi).
  split; [lia |]. split; [by apply lookup_app_l_Some |].
  split; [by rewrite lookup_app_r, Nat.add_sub' by lia |]. done.
Qed.

End TableFacts.

(** X1: in a constructed aggregate, [axes] and [phys_axes] have the keys
    X, Y, Z and T and no other; a slot of [axes] that holds a coordinate
    holds an entry of [dims] whose axis name is the key, a slot of
    [phys_axes] an entry of [dims] or [scalar_coords] whose axis name is the
    key; the properties [X], [Y], [Z] and [T] return without KeyError. *)
Theorem axes_slots {A : Type} (axis : A → DMAxis.t)
    (dims scalar_coords : list A) (d : DMDimensions.t A) :
  DMDimensions.init axis dims scalar_coords = Ok d →
  (∀ key, is_Some (DMDimensions.axes d !! key)
          ↔ key ∈ DMAxis.spatiotemporal_names)
  ∧ (∀ key, is_Some (DMDimensions.phys_axes d !! key)
            ↔ key ∈ DMAxis.spatiotemporal_names)
  ∧ (∀ key c, DMDimensions.axes d !! key = Some (Some c) →
       c ∈ dims ∧ DMAxis.name (axis c) = key)
  ∧ (∀ key c, DMDimensions.phys_axes d !! key = Some (Some c) →
       c ∈ dims ++ scalar_coords ∧ DMAxis.name (axis c) = key)
  ∧ ∃ x y z t,
      DMDimensions.X d = Ok x ∧ DMDimensions.Y d = Ok y
      ∧ DMDimensions.Z d = Ok z ∧ DMDimensions.T d = Ok t.
Proof.
  intros [_ ->]%init_ok_inv. simpl.
  assert (Haxes : ∀ key,
            is_Some (DMDimensions.assign_axes axis DMDimensions.empty_axes dims
                     !! key) ↔ key ∈ DMAxis.spatiotemporal_names).
  { intros key. apply assign_axes_keys, empty_axes_keys. }
  split; [exact Haxes |].
  split; [intros key; apply assign_axes_keys, Haxes |].
  split; [intros key c (? & ? & _)%axes_lookup_dims; done |].
  split.
  - intros key c [Hk | (Hc & Hn & _)]%assign_axes_lookup_Some.
    + apply axes_lookup_dims in Hk as (? & ? & _).
      split; [apply elem_of_app; by left | done].
    + split; [apply elem_of_app; by right | done].
  - unfold DMDimensions.X, DMDimensions.Y, DMDimensions.Z, DMDimensions.T,
      getitem. simpl.
    destruct (proj2 (Haxes "X")) as [x ->]; [repeat constructor |].
    destruct (proj2 (Haxes "Y")) as [y ->]; [repeat constructor |].
    destruct (proj2 (Haxes "Z")) as [z ->]; [repeat constructor |].
    destruct (proj2 (Haxes "T")) as [t ->]; [repeat constructor |].
    by exists x, y, z, t.
Qed.

Lemma axes_slots_witness :
  ∃ d,
    DMDimensions.init axis [lat_bnds; time_1980_1990; lat] [plev500] = Ok d
    ∧ DMDimensions.axes d !! "BOUNDS" = None
    ∧ DMDimensions.X d = Ok None
    ∧ DMDimensions.Y d = Ok (Some lat).
Proof.
  eexists. split; [reflexivity |].
  edestruct (axes_slots (A := coordinate) axis
               [lat_bnds; time_1980_1990; lat] [plev500])
    as (Hkeys & _); [reflexivity |].
  split; [| split; reflexivity].
  apply eq_None_not_Some. rewrite Hkeys.
  unfold DMAxis.spatiotemporal_names. rewrite !elem_of_cons, elem_of_nil.
  intros [? | [? | [? | [? | []]]]]; discriminate.
Defined.

(** X2: [phys_axes] never replaces a dimension coordinate.  In a constructed
    aggregate a slot of [axes] that holds a coordinate holds the same
    coordinate in [phys_axes], and a slot of [phys_axes] differs from the
    slot of [axes] only where that is [None] and a scalar coordinate fills
    it. *)
Theorem phys_axes_extends_axes {A : Type} (axis : A → DMAxis.t)
    (dims scalar_coords : list A) (d : DMDimensions.t A) :
  DMDimensions.init axis dims scalar_coords = Ok d →
  ∀ key,
    (∀ c, DMDimensions.axes d !! key = Some (Some c) →
          DMDimensions.phys_axes d !! key = Some (Some c))
    ∧ (DMDimensions.phys_axes d !! key = DMDimensions.axes d !! key
       ∨ (DMDimensions.axes d !! key = Some None
          ∧ ∃ c, c ∈ scalar_coords
                 ∧ DMDimensions.phys_axes d !! key = Some (Some c))).
Proof.
  intros [Hno ->]%init_ok_inv key. simpl.
  set (axes := DMDimensions.assign_axes axis DMDimensions.empty_axes dims).
  assert (Hkeep : ∀ c, axes !! key = Some (Some c) →
            DMDimensions.assign_axes axis axes scalar_coords !! key
            = Some (Some c)).
  { intros c Hc. rewrite assign_axes_lookup_other; [done |].
    apply axes_lookup_dims in Hc as (Hin & <- & Hst).
    intros c' Hc' Hname%axis_name_inj.
    eapply (no_duplicate_across axis dims scalar_coords c c'); eauto.
    by apply spatiotemporal_cases in Hst as [_ ?]. }
  split; [exact Hkeep |].
  assert (Hkeys : is_Some (axes !! key) ↔ key ∈ DMAxis.spatiotemporal_names)
    by apply assign_axes_keys, empty_axes_keys.
  assert (Hcases : axes !! key = None ∨ axes !! key = Some None
                   ∨ ∃ c0, axes !! key = Some (Some c0))
    by (destruct (axes !! key) as [[c0 |] |]; eauto).
  destruct Hcases as [Hax | [Hax | [c0 Hax]]].
  - left. rewrite Hax. apply eq_None_not_Some.
    rewrite (assign_axes_keys axis scalar_coords axes key Hkeys), <- Hkeys.
    rewrite Hax. by intros [? ?].
  - destruct (DMDimensions.assign_axes axis axes scalar_coords !! key)
      as [[c |] |] eqn:Hphys.
    + right. split; [done |]. exists c. split; [| done].
      apply assign_axes_lookup_Some in Hphys as [Hc | (Hin & _)];
        [congruence | done].
    + by left.
    + assert (is_Some (DMDimensions.assign_axes axis axes scalar_coords !! key))
        as [? ?]; [| congruence].
      apply assign_axes_lookup_is_Some. rewrite Hax. by eexists.
  - left. rewrite Hax. by apply Hkeep.
Qed.

Lemma phys_axes_extends_axes_witness :
  ∃ d,
    DMDimensions.init axis [time_1980_1990; lat] [plev500] = Ok d
    ∧ ∀ key,
        (∀ c, DMDimensions.axes d !! key = Some (Some c) →
              DMDimensions.phys_axes d !! key = Some (Some c))
        ∧ (DMDimensions.phys_axes d !! key = DMDimensions.axes d !! key
           ∨ (DMDimensions.axes d !! key = Some None
              ∧ ∃ c, c ∈ [plev500]
                     ∧ DMDimensions.phys_axes d !! key = Some (Some c))).
Proof.
  eexists. split; [reflexivity |].
  eapply (phys_axes_extends_axes (A := coordinate) axis
            [time_1980_1990; lat] [plev500]).
  reflexivity.
Defined.

(** X3: construction does not depend on the order in which [dims] and the
    set [scalar_coords] are traversed.  For a rearrangement of both,
    construction succeeds when it did before, with the same [axes] and
    [phys_axes], and fails when it did before. *)
Theorem construction_order_independent {A : Type} (axis : A → DMAxis.t)
    (dims dims' scalar_coords scalar_coords' : list A) :
  dims ≡ₚ dims' → scalar_coords ≡ₚ scalar_coords' →
  (∀ d, DMDimensions.init axis dims scalar_coords = Ok d →
        DMDimensions.init axis dims' scalar_coords'
        = Ok (DMDimensions.mk dims' scalar_coords'
                (DMDimensions.axes d) (DMDimensions.phys_axes d)))
  ∧ (∀ e, DMDimensions.init axis dims scalar_coords = Raise e →
          ∃ e', DMDimensions.init axis dims' scalar_coords' = Raise e').
Proof.
  intros Hd Hs.
  assert (Hchain : dims ++ scalar_coords ≡ₚ dims' ++ scalar_coords')
    by by apply Permutation_app.
  split.
  - intros d [Hno ->]%init_ok_inv. simpl.
    rewrite init_ok; [| intros Hdup; apply Hno;
                        by eapply duplicate_axis_perm; [symmetry |]].
    assert (Hnod : ¬ duplicate_axis axis dims).
    { intros (i & j & c1 & c2 & Hij & H1 & H2 & Hax). apply Hno.
      exists i, j, c1, c2. split; [done |].
      split; [by apply lookup_app_l_Some |].
      split; [by apply lookup_app_l_Some | done]. }
    assert (Hnos : ¬ duplicate_axis axis scalar_coords).
    { intros (i & j & c1 & c2 & Hij & H1 & H2 & Hax). apply Hno.
      exists (length dims + i), (length dims + j), c1, c2.
      split; [lia |]. rewrite !lookup_app_r, !Nat.add_sub' by lia. done. }
    by rewrite <- (assign_axes_perm axis dims dims' Hd Hnod),
         <- (assign_axes_perm axis scalar_coords scalar_coords' Hs Hnos).
  - intros e [Hdup _]%init_raise_inv.
    destruct (DMDimensions.init axis dims' scalar_coords') as [d' | e'] eqn:Hi;
      [| by eauto].
    apply init_ok_inv in Hi as [Hno _]. destruct Hno.
    by eapply duplicate_axis_perm.
Qed.

Lemma construction_order_independent_witness :
  (∃ d,
     DMDimensions.init axis [time_1980_1990; lat] [plev500; member] = Ok d
     ∧ DMDimensions.init axis [lat; time_1980_1990] [member; plev500]
       = Ok (DMDimensions.mk [lat; time_1980_1990] [member; plev500]
               (DMDimensions.axes d) (DMDimensions.phys_axes d)))
  ∧ ∃ e e',
      DMDimensions.init axis [time_1980_1990; lat] [plev500; sigma None]
      = Raise e
      ∧ DMDimensions.init axis [lat; time_1980_1990] [sigma None; plev500]
        = Raise e'.
Proof.
  split.
  - eexists. split; [reflexivity |].
    eapply (proj1 (construction_order_independent (A := coordinate) axis
                     [time_1980_1990; lat] [lat; time_1980_1990]
                     [plev500; member] [member; plev500]
                     (perm_swap _ _ _) (perm_swap _ _ _))).
    reflexivity.
  - eexists.
    edestruct (proj2 (construction_order_independent (A := coordinate) axis
                        [time_1980_1990; lat] [lat; time_1980_1990]
                        [plev500; sigma None] [sigma None; plev500]
                        (perm_swap _ _ _) (perm_swap _ _ _))) as [e' He'];
      [reflexivity |].
    exists e'. split; [reflexivity | exact He'].
Defined.

(** ** Variables, auxiliary coordinates and bounds *)

(** X4: a data variable and an auxiliary coordinate add no validation to
    that of Dimensions.  Construction succeeds exactly when no two entries
    of [dims] and [scalar_coords] share an axis kind other than OTHER, with
    any number of dims and with scalar coordinates, and stores the three
    identity fields as given; it fails with the duplicate-axis error only. *)
Theorem variable_construction {A : Type} (axis : A → DMAxis.t)
    (dims scalar_coords : list A) (name standard_name units : string) :
  (¬ duplicate_axis axis (dims ++ scalar_coords) →
   ∃ d,
     DMDimensions.init axis dims scalar_coords = Ok d
     ∧ DMVariable.init axis dims scalar_coords name standard_name units
       = Ok (DMVariable.mk d name standard_name units)
     ∧ DMAuxiliaryCoordinate.init axis dims scalar_coords name standard_name
         units
       = Ok (DMAuxiliaryCoordinate.mk d name standard_name units))
  ∧ (duplicate_axis axis (dims ++ scalar_coords) →
     ∃ c prev,
       DMVariable.init axis dims scalar_coords name standard_name units
       = Raise (ValueError (Duplicate_definition (DMAxis.name (axis c)) c prev))
       ∧ DMAuxiliaryCoordinate.init axis dims scalar_coords name standard_name
           units
         = Raise (ValueError
                    (Duplicate_definition (DMAxis.name (axis c)) c prev)))
  ∧ (∀ e, DMVariable.init axis dims scalar_coords name standard_name units
          = Raise e →
          duplicate_axis axis (dims ++ scalar_coords)).
Proof.
  unfold DMVariable.init, DMVariable.__post_init__,
    DMAuxiliaryCoordinate.init, DMAuxiliaryCoordinate.__post_init__. simpl.
  change (DMDimensions.__post_init__ axis
            (DMDimensions.mk dims scalar_coords ∅ ∅))
    with (DMDimensions.init axis dims scalar_coords).
  split; [| split].
  - intros Hno. rewrite init_ok by done. eauto.
  - intros (i & j & c & prev & Hr & _)%check_duplicates_raise.
    exists c, prev.
    unfold DMDimensions.init, DMDimensions.__post_init__. simpl.
    by rewrite Hr.
  - intros e He.
    destruct (DMDimensions.init axis dims scalar_coords) as [d | e'] eqn:Hd;
      [discriminate |].
    by apply init_raise_inv in Hd as [? _].
Qed.

Lemma variable_construction_witness :
  (∃ d,
     DMDimensions.init axis [time_1980_1990; lat; lon; lat_bnds]
       [plev500; member] = Ok d
     ∧ DMVariable.init axis [time_1980_1990; lat; lon; lat_bnds]
         [plev500; member] "ua" "eastward_wind" "m s-1"
       = Ok (DMVariable.mk d "ua" "eastward_wind" "m s-1")
     ∧ DMAuxiliaryCoordinate.init axis [time_1980_1990; lat; lon; lat_bnds]
         [plev500; member] "ua" "eastward_wind" "m s-1"
       = Ok (DMAuxiliaryCoordinate.mk d "ua" "eastward_wind" "m s-1"))
  ∧ duplicate_axis axis ([lat; rlat] ++ []).
Proof.
  split.
  - apply (proj1 (variable_construction (A := coordinate) axis
                    [time_1980_1990; lat; lon; lat_bnds] [plev500; member]
                    "ua" "eastward_wind" "m s-1")).
    eapply (check_duplicates_ok_inv (A := coordinate) axis). reflexivity.
  - eapply (proj2 (proj2 (variable_construction (A := coordinate) axis
                            [lat; rlat] [] "ua" "eastward_wind" "m s-1"))).
    reflexivity.
Defined.

(** What a successful construction of coordinate bounds says of its
    arguments and of the bounds. *)
Lemma bounds_init_ok_inv {A : Type} (axis : A → DMAxis.t)
    (dims scalar_coords : list A) (name standard_name units : string)
    (b : DMCoordinateBounds.t A) :
  DMCoordinateBounds.init axis dims scalar_coords name standard_name units
  = Ok b →
  scalar_coords = []
  ∧ (∃ c bd, (dims = [c; bd] ∨ dims = [bd; c])
             ∧ axis bd = DMAxis.BOUNDS ∧ axis c ≠ DMAxis.BOUNDS)
  ∧ b = DMAuxiliaryCoordinate.mk
          (DMDimensions.mk dims []
             (DMDimensions.assign_axes axis DMDimensions.empty_axes dims)
             (DMDimensions.assign_axes axis DMDimensions.empty_axes dims))
          name standard_name units.
Proof.
  rewrite bounds_init_unfold.
  destruct (DMDimensions.init axis dims scalar_coords) as [d | e] eqn:Hd;
    [| discriminate].
  apply init_ok_inv in Hd as [Hno ->]. simpl.
  case_bool_decide as Hsc; [discriminate |].
  destruct (bool_decide (length dims ≠ 2) || _) eqn:Hdims; [discriminate |].
  apply orb_false_elim in Hdims as [Hlen Hb].
  apply bool_decide_eq_false in Hlen, Hb.
  intros [= <-].
  assert (scalar_coords = []) as -> by by destruct scalar_coords.
  split; [done |]. split; [| done].
  destruct dims as [| x [| y [| ? ?]]]; simpl in Hlen; try lia.
  rewrite app_nil_r in Hno.
  assert (Hxy : ¬ (axis x = axis y ∧ axis x ≠ DMAxis.OTHER)).
  { intros [? ?]. apply Hno. exists 0, 1, x, y. repeat split; auto. }
  destruct (decide (axis x = DMAxis.BOUNDS)) as [Hx | Hx],
           (decide (axis y = DMAxis.BOUNDS)) as [Hy | Hy].
  - destruct Hxy. split; congruence.
  - exists y, x. auto.
  - exists x, y. auto.
  - destruct Hb. simpl. rewrite !elem_of_cons, elem_of_nil.
    intros [? | [? | []]]; congruence.
Qed.

(** X5: every constructed bounds object has no scalar coordinate and two
    dims, one of kind BOUNDS and one of another kind, in either order; its
    [phys_axes] is its [axes], and its identity fields are those given. *)
Theorem constructed_bounds_shape {A : Type} (axis : A → DMAxis.t)
    (dims scalar_coords : list A) (name standard_name units : string)
    (b : DMCoordinateBounds.t A) :
  DMCoordinateBounds.init axis dims scalar_coords name standard_name units
  = Ok b →
  let d := DMAuxiliaryCoordinate.dimensions b in
  scalar_coords = [] ∧ DMDimensions.scalar_coords d = []
  ∧ DMDimensions.dims d = dims
  ∧ (∃ c bd, (dims = [c; bd] ∨ dims = [bd; c])
             ∧ axis bd = DMAxis.BOUNDS ∧ axis c ≠ DMAxis.BOUNDS)
  ∧ DMDimensions.phys_axes d = DMDimensions.axes d
  ∧ DMAuxiliaryCoordinate.name b = name
  ∧ DMAuxiliaryCoordinate.standard_name b = standard_name
  ∧ DMAuxiliaryCoordinate.units b = units.
Proof.
  intros (-> & Hdims & ->)%bounds_init_ok_inv. simpl. by repeat split.
Qed.

Lemma constructed_bounds_shape_witness :
  ∃ b,
    DMCoordinateBounds.init axis [lat_bnds; lat] [] "lat_bnds" "latitude"
      "degrees_N" = Ok b
    ∧ DMDimensions.phys_axes (DMAuxiliaryCoordinate.dimensions b)
      = DMDimensions.axes (DMAuxiliaryCoordinate.dimensions b).
Proof.
  eexists. split; [reflexivity |].
  eapply (constructed_bounds_shape (A := coordinate) axis [lat_bnds; lat] []
            "lat_bnds" "latitude" "degrees_N").
  reflexivity.
Defined.

(** X6: on every constructed bounds object the property [coord] returns,
    so the [raise ValueError] of line 275 is not reached; it returns the
    member of [dims] that is not of kind BOUNDS, the only one, whether that
    comes first or second. *)
Theorem coord_of_constructed_bounds {A : Type} (axis : A → DMAxis.t)
    (dims scalar_coords : list A) (name standard_name units : string)
    (b : DMCoordinateBounds.t A) :
  DMCoordinateBounds.init axis dims scalar_coords name standard_name units
  = Ok b →
  ∃ c,
    DMCoordinateBounds.coord axis b = Ok c
    ∧ c ∈ dims ∧ axis c ≠ DMAxis.BOUNDS
    ∧ ∀ c', c' ∈ dims → axis c' ≠ DMAxis.BOUNDS → c' = c.
Proof.
  intros (-> & (c & bd & Hdims & Hbd & Hc) & ->)%bounds_init_ok_inv.
  exists c. unfold DMCoordinateBounds.coord. simpl.
  destruct Hdims as [-> | ->]; simpl.
  - rewrite bool_decide_eq_true_2 by done.
    split; [done |]. split; [left |]. split; [done |].
    intros c' [-> | [-> | []%elem_of_nil]%elem_of_cons]%elem_of_cons; done.
  - rewrite bool_decide_eq_false_2 by (intros H; by apply H).
    rewrite bool_decide_eq_true_2 by done.
    split; [done |]. split; [right; left |]. split; [done |].
    intros c' [-> | [-> | []%elem_of_nil]%elem_of_cons]%elem_of_cons; done.
Qed.

Lemma coord_of_constructed_bounds_witness :
  ∃ b,
    DMCoordinateBounds.init axis [lat_bnds; lat] [] "lat_bnds" "latitude"
      "degrees_N" = Ok b
    ∧ ∃ c,
        DMCoordinateBounds.coord axis b = Ok c
        ∧ c ∈ [lat_bnds; lat] ∧ axis c ≠ DMAxis.BOUNDS
        ∧ ∀ c', c' ∈ [lat_bnds; lat] → axis c' ≠ DMAxis.BOUNDS → c' = c.
Proof.
  eexists. split; [reflexivity |].
  eapply (coord_of_constructed_bounds (A := coordinate) axis [lat_bnds; lat] []
            "lat_bnds" "latitude" "degrees_N").
  reflexivity.
Defined.

(** ** More on the coordinate bounds factory *)

Lemma heap_axis_lookup (h : heap) (l : loc) (c : coordinate) :
  h !! l = Some (OCoordinate c) → heap_axis h l = axis c.
Proof. unfold heap_axis. by intros ->. Qed.

(** X7: given a DMBoundsDimension object instead of a name, the factory
    allocates the bounds object and nothing else; the object given is the
    second dim and stays as it was, and [coord.bounds] is the new
    reference. *)
Theorem bounds_from_coordinate_with_dimension (h : heap) (coord bd : loc)
    (c : coordinate) (d0 : DMBoundsDimension.t) :
  h !! coord = Some (OCoordinate c) → axis c ≠ DMAxis.BOUNDS →
  h !! bd = Some (OCoordinate (BoundsDimension d0)) →
  ∃ b,
    DMCoordinateBounds_from_coordinate h coord (PRef bd)
    = Ok (<[coord := OCoordinate (set_bounds c (PRef (fresh (dom h))))]>
            (<[fresh (dom h) := OCoordinateBounds b]> h), fresh (dom h))
    ∧ h !! fresh (dom h) = None
    ∧ DMDimensions.dims (DMAuxiliaryCoordinate.dimensions b) = [coord; bd]
    ∧ DMCoordinateBounds.coord (heap_axis h) b = Ok coord
    ∧ DMAuxiliaryCoordinate.name b = name c
    ∧ DMAuxiliaryCoordinate.standard_name b = standard_name c
    ∧ DMAuxiliaryCoordinate.units b = units c
    ∧ bd ≠ coord ∧ bd ≠ fresh (dom h).
Proof.
  intros Hc Hax Hbd.
  assert (Hne : bd ≠ coord).
  { intros ->. rewrite Hc in Hbd. injection Hbd as ->. by apply Hax. }
  unfold DMCoordinateBounds_from_coordinate, deref. rewrite Hc. simpl.
  rewrite Hbd. simpl.
  rewrite bounds_init_ok
    by (right; by rewrite (heap_axis_lookup _ _ _ Hc),
                          (heap_axis_lookup _ _ _ Hbd)).
  simpl. eexists. split; [reflexivity |].
  split; [apply fresh_lookup |]. split; [done |].
  split.
  { unfold DMCoordinateBounds.coord. simpl.
    by rewrite bool_decide_eq_true_2 by by rewrite (heap_axis_lookup _ _ _ Hc). }
  do 3 (split; [done |]). split; [done |].
  symmetry. by eapply fresh_ne.
Qed.

Lemma bounds_from_coordinate_with_dimension_witness :
  ∃ b,
    DMCoordinateBounds_from_coordinate heap_latitude_bounds 1%positive
      (PRef 2%positive)
    = Ok (<[1%positive :=
              OCoordinate (set_bounds (set_bounds latitude (PRef 3%positive))
                             (PRef (fresh (dom heap_latitude_bounds))))]>
            (<[fresh (dom heap_latitude_bounds) := OCoordinateBounds b]>
               heap_latitude_bounds),
          fresh (dom heap_latitude_bounds))
    ∧ DMDimensions.dims (DMAuxiliaryCoordinate.dimensions b)
      = [1%positive; 2%positive].
Proof.
  edestruct (bounds_from_coordinate_with_dimension heap_latitude_bounds
               1%positive 2%positive (set_bounds latitude (PRef 3%positive)))
    as (b & Hok & _ & Hdims & _); [reflexivity | discriminate | reflexivity |].
  exists b. split; [exact Hok | exact Hdims].
Defined.

(** X8: given a name, the factory succeeds exactly on the coordinates that
    are not of kind BOUNDS.  On a coordinate of kind BOUNDS it raises the
    duplicate-axis error for the axis BOUNDS, whose message has the new
    bounds dimension and the coordinate. *)
Theorem bounds_from_coordinate_of_kind_bounds (h : heap) (coord : loc)
    (c : coordinate) (s : string) :
  h !! coord = Some (OCoordinate c) →
  (axis c = DMAxis.BOUNDS →
   DMCoordinateBounds_from_coordinate h coord (PStr s)
   = Raise (ValueError
              (Duplicate_definition "BOUNDS" (fresh (dom h)) coord)))
  ∧ ((∃ h' r, DMCoordinateBounds_from_coordinate h coord (PStr s) = Ok (h', r))
     ↔ axis c ≠ DMAxis.BOUNDS).
Proof.
  intros Hc.
  assert (Hfail : axis c = DMAxis.BOUNDS →
            DMCoordinateBounds_from_coordinate h coord (PStr s)
            = Raise (ValueError
                       (Duplicate_definition "BOUNDS" (fresh (dom h)) coord))).
  { intros Hax.
    unfold DMCoordinateBounds_from_coordinate, deref. rewrite Hc. simpl.
    set (bd := fresh (dom h)).
    set (h1 := <[bd := _]> h).
    assert (Hbd : bd ≠ coord) by by eapply fresh_ne.
    assert (H1 : heap_axis h1 coord = DMAxis.BOUNDS).
    { rewrite <- Hax. apply heap_axis_lookup.
      unfold h1. by rewrite lookup_insert_ne. }
    assert (H2 : heap_axis h1 bd = DMAxis.BOUNDS).
    { unfold heap_axis, h1. by rewrite lookup_insert_eq. }
    rewrite bounds_init_unfold.
    unfold DMDimensions.init, DMDimensions.__post_init__. simpl.
    unfold DMDimensions.axis_name. rewrite H1, H2. simpl.
    rewrite lookup_empty. simpl.
    rewrite lookup_insert_eq.
    rewrite bool_decide_eq_true_2 by by eexists.
    unfold getitem. by rewrite lookup_insert_eq. }
  split; [exact Hfail |]. split.
  - intros (h' & r & Hok) Hax. rewrite Hfail in Hok by done. discriminate.
  - intros Hax.
    destruct (bounds_from_coordinate_ok h coord c s Hc Hax) as [Hok _]. eauto.
Qed.

Lemma bounds_from_coordinate_of_kind_bounds_witness :
  DMCoordinateBounds_from_coordinate heap_latitude_bounds 2%positive
    (PStr "bnds_bnds")
  = Raise (ValueError
             (Duplicate_definition "BOUNDS" (fresh (dom heap_latitude_bounds))
                2%positive))
  ∧ ∃ h' r,
      DMCoordinateBounds_from_coordinate heap_latitude 1%positive
        (PStr "lat_bnds") = Ok (h', r).
Proof.
  split.
  - eapply (proj1 (bounds_from_coordinate_of_kind_bounds heap_latitude_bounds
                     2%positive _ "bnds_bnds" eq_refl)).
    reflexivity.
  - eapply (proj2 (proj2 (bounds_from_coordinate_of_kind_bounds heap_latitude
                            1%positive _ "lat_bnds" eq_refl))).
    discriminate.
Defined.

(** X9: the bounds object that the factory builds for a coordinate of a
    spatiotemporal kind has the reference of the coordinate in the slot of
    that kind and [None] in the three other slots; for a coordinate of kind
    OTHER all four slots are [None].  The bounds dimension is in no slot,
    and [phys_axes] is [axes]. *)
Theorem bounds_from_coordinate_axes (h : heap) (coord : loc) (c : coordinate)
    (s : string) :
  h !! coord = Some (OCoordinate c) → axis c ≠ DMAxis.BOUNDS →
  ∃ h' r b,
    DMCoordinateBounds_from_coordinate h coord (PStr s) = Ok (h', r)
    ∧ h' !! r = Some (OCoordinateBounds b)
    ∧ (∀ key,
         DMDimensions.axes (DMAuxiliaryCoordinate.dimensions b) !! key
         = if decide (spatiotemporal (axis c) ∧ DMAxis.name (axis c) = key)
           then Some (Some coord)
           else if decide (key ∈ DMAxis.spatiotemporal_names) then Some None
           else None)
    ∧ DMDimensions.phys_axes (DMAuxiliaryCoordinate.dimensions b)
      = DMDimensions.axes (DMAuxiliaryCoordinate.dimensions b).
Proof.
  intros Hc Hax.
  destruct (bounds_from_coordinate_ok h coord c s Hc Hax)
    as (Hok & Hbd & Hr & Hrb & Hbdh & Hrh).
  eexists _, _, _. split; [exact Hok |].
  split; [by rewrite lookup_insert_ne, lookup_insert_eq by congruence |].
  split; [| done].
  intros key. simpl. rewrite !assign_axis_lookup.
  rewrite (heap_axis_lookup _ (fresh (dom h))
             (BoundsDimension (DMBoundsDimension.init s)))
    by by rewrite lookup_insert_eq.
  rewrite (heap_axis_lookup _ coord c) by by rewrite lookup_insert_ne.
  change (on_coordinate (λ C : Set, @axis C) c) with (axis c).
  rewrite (decide_False
             (P := spatiotemporal (axis (BoundsDimension _)) ∧ _)).
  2: { intros [[? _]%spatiotemporal_cases _]. done. }
  case_decide; [done |].
  case_decide as Hkey.
  - apply (empty_axes_keys (A := loc)) in Hkey as [slot Hslot].
    rewrite Hslot. by apply empty_axes_lookup_Some in Hslot as ->.
  - apply eq_None_not_Some. by rewrite empty_axes_keys.
Qed.

Lemma bounds_from_coordinate_axes_witness :
  ∃ h' r b,
    DMCoordinateBounds_from_coordinate heap_latitude 1%positive
      (PStr "lat_bnds") = Ok (h', r)
    ∧ h' !! r = Some (OCoordinateBounds b)
    ∧ DMDimensions.axes (DMAuxiliaryCoordinate.dimensions b) !! "Y"
      = Some (Some 1%positive)
    ∧ DMDimensions.axes (DMAuxiliaryCoordinate.dimensions b) !! "X"
      = Some None.
Proof.
  destruct (bounds_from_coordinate_axes heap_latitude 1%positive latitude
              "lat_bnds" eq_refl) as (h' & r & b & Hok & Hr & Haxes & _);
    [discriminate |].
  exists h', r, b. split; [exact Hok |]. split; [exact Hr |].
  split; [exact (Haxes "Y") | exact (Haxes "X")].
Defined.

(** What one call of the factory with a name leaves on the heap. *)
Lemma bounds_from_coordinate_result (h : heap) (coord : loc) (c : coordinate)
    (s : string) :
  h !! coord = Some (OCoordinate c) → axis c ≠ DMAxis.BOUNDS →
  ∃ h' r bd b,
    DMCoordinateBounds_from_coordinate h coord (PStr s) = Ok (h', r)
    ∧ h' !! r = Some (OCoordinateBounds b)
    ∧ DMDimensions.dims (DMAuxiliaryCoordinate.dimensions b) = [coord; bd]
    ∧ h !! r = None ∧ r ≠ coord
    ∧ h' !! coord = Some (OCoordinate (set_bounds c (PRef r)))
    ∧ ∀ l o, l ≠ coord → h !! l = Some o → h' !! l = Some o.
Proof.
  intros Hc Hax.
  destruct (bounds_from_coordinate_ok h coord c s Hc Hax)
    as (Hok & Hbd & Hr & Hrb & Hbdh & Hrh).
  eexists _, _, _, _. split; [exact Hok |].
  split; [by rewrite lookup_insert_ne, lookup_insert_eq by congruence |].
  split; [done |]. split; [done |]. split; [done |].
  split; [by rewrite lookup_insert_eq |].
  intros l o Hl Hlo.
  rewrite lookup_insert_ne by done.
  rewrite lookup_insert_ne by (intros <-; congruence).
  rewrite lookup_insert_ne by (intros <-; congruence). done.
Qed.

Lemma coord_first_dimension (h : heap) (b : DMCoordinateBounds.t loc)
    (coord : loc) (rest : list loc) :
  DMDimensions.dims (DMAuxiliaryCoordinate.dimensions b) = coord :: rest →
  heap_axis h coord ≠ DMAxis.BOUNDS →
  DMCoordinateBounds.coord (heap_axis h) b = Ok coord.
Proof.
  intros Hdims Hax. unfold DMCoordinateBounds.coord. rewrite Hdims. simpl.
  by rewrite bool_decide_eq_true_2.
Qed.

(** X10: after two calls of the factory on the same coordinate both bounds
    objects have the coordinate as their [coord], and [coord.bounds] is the
    second. *)
Theorem bounds_from_coordinate_twice (h : heap) (coord : loc) (c : coordinate)
    (s1 s2 : string) :
  h !! coord = Some (OCoordinate c) → axis c ≠ DMAxis.BOUNDS →
  ∃ h1 r1 h2 r2 b1 b2,
    DMCoordinateBounds_from_coordinate h coord (PStr s1) = Ok (h1, r1)
    ∧ DMCoordinateBounds_from_coordinate h1 coord (PStr s2) = Ok (h2, r2)
    ∧ r1 ≠ r2
    ∧ h2 !! r1 = Some (OCoordinateBounds b1)
    ∧ h2 !! r2 = Some (OCoordinateBounds b2)
    ∧ DMCoordinateBounds.coord (heap_axis h2) b1 = Ok coord
    ∧ DMCoordinateBounds.coord (heap_axis h2) b2 = Ok coord
    ∧ h2 !! coord = Some (OCoordinate (set_bounds c (PRef r2))).
Proof.
  intros Hc Hax.
  destruct (bounds_from_coordinate_result h coord c s1 Hc Hax)
    as (h1 & r1 & bd1 & b1 & Hok1 & Hr1 & Hdims1 & _ & Hne1 & Hc1 & _).
  assert (Hax1 : axis (set_bounds c (PRef r1)) ≠ DMAxis.BOUNDS)
    by by rewrite (proj1 (proj2 (proj2 (proj2 (set_bounds_interface c _))))).
  destruct (bounds_from_coordinate_result h1 coord _ s2 Hc1 Hax1)
    as (h2 & r2 & bd2 & b2 & Hok2 & Hr2 & Hdims2 & Hfresh2 & Hne2 & Hc2 & Hrest).
  rewrite set_bounds_set_bounds in Hc2.
  assert (Hax2 : heap_axis h2 coord ≠ DMAxis.BOUNDS).
  { rewrite (heap_axis_lookup _ _ _ Hc2).
    by rewrite (proj1 (proj2 (proj2 (proj2 (set_bounds_interface c _))))). }
  exists h1, r1, h2, r2, b1, b2.
  split; [done |]. split; [done |].
  split; [congruence |].
  split; [by apply Hrest |]. split; [done |].
  split; [by eapply coord_first_dimension |].
  split; [by eapply coord_first_dimension | done].
Qed.

Lemma bounds_from_coordinate_twice_witness :
  ∃ h1 r1 h2 r2 b1 b2,
    DMCoordinateBounds_from_coordinate heap_latitude 1%positive
      (PStr "lat_bnds") = Ok (h1, r1)
    ∧ DMCoordinateBounds_from_coordinate h1 1%positive (PStr "bnds")
      = Ok (h2, r2)
    ∧ r1 ≠ r2
    ∧ h2 !! r1 = Some (OCoordinateBounds b1)
    ∧ h2 !! r2 = Some (OCoordinateBounds b2)
    ∧ DMCoordinateBounds.coord (heap_axis h2) b1 = Ok 1%positive
    ∧ DMCoordinateBounds.coord (heap_axis h2) b2 = Ok 1%positive
    ∧ h2 !! 1%positive = Some (OCoordinate (set_bounds latitude (PRef r2))).
Proof.
  apply (bounds_from_coordinate_twice heap_latitude 1%positive latitude
           "lat_bnds" "bnds").
  - reflexivity.
  - discriminate.
Defined.

(** ** More on time dependence *)

(** X11: an aggregate without a dimension of kind T is static, whatever its
    scalar coordinates, a scalar coordinate of kind T included: [T] is
    [None], and [replace_date_range] fails on the assertion. *)
Theorem static_without_time_dimension (dims scalar_coords : list coordinate)
    (d : DMDimensions.t coordinate) (new_range : option AbstractDateRange) :
  DMDimensions.init axis dims scalar_coords = Ok d →
  (∀ c, c ∈ dims → axis c ≠ DMAxis.T) →
  DMDimensions.T d = Ok None
  ∧ is_static d = Ok true
  ∧ replace_date_range d new_range = Raise AssertionError.
Proof.
  intros [_ ->]%init_ok_inv Hdims.
  assert (HT : DMDimensions.T
                 (DMDimensions.mk dims scalar_coords
                    (DMDimensions.assign_axes axis DMDimensions.empty_axes dims)
                    (DMDimensions.assign_axes axis
                       (DMDimensions.assign_axes axis DMDimensions.empty_axes
                          dims) scalar_coords)) = Ok None).
  { unfold DMDimensions.T, getitem. simpl.
    rewrite assign_axes_lookup_other; [done |].
    intros c Hc Hn. apply (Hdims c Hc). by apply axis_name_inj. }
  assert (Hs : is_static
                 (DMDimensions.mk dims scalar_coords
                    (DMDimensions.assign_axes axis DMDimensions.empty_axes dims)
                    (DMDimensions.assign_axes axis
                       (DMDimensions.assign_axes axis DMDimensions.empty_axes
                          dims) scalar_coords)) = Ok true)
    by (unfold is_static; by rewrite HT).
  split; [done |]. split; [done |].
  by apply replace_date_range_static.
Qed.

Lemma static_without_time_dimension_witness :
  ∃ d,
    DMDimensions.init axis [lat; lon] [forecast_time] = Ok d
    ∧ DMDimensions.phys_axes d !! "T" = Some (Some forecast_time)
    ∧ DMDimensions.T d = Ok None
    ∧ is_static d = Ok true
    ∧ replace_date_range d (Some (DateRange 1990 2000)) = Raise AssertionError.
Proof.
  eexists. split; [reflexivity |]. split; [reflexivity |].
  eapply (static_without_time_dimension [lat; lon] [forecast_time]).
  - reflexivity.
  - intros c [-> | [-> | []%elem_of_nil]%elem_of_cons]%elem_of_cons;
      discriminate.
Defined.

(** X12: when the dimension of kind T is a coordinate of another class than
    DMTimeCoordinate, which has no [is_static], both [is_static] and
    [replace_date_range] raise AttributeError. *)
Theorem is_static_of_other_class (dims scalar_coords : list coordinate)
    (d : DMDimensions.t coordinate) (c : coordinate)
    (new_range : option AbstractDateRange) :
  DMDimensions.init axis dims scalar_coords = Ok d →
  c ∈ dims → axis c = DMAxis.T →
  coordinate_class c ≠ DMTimeCoordinate_class →
  DMDimensions.T d = Ok (Some c)
  ∧ is_static d = Raise (AttributeError "is_static")
  ∧ replace_date_range d new_range = Raise (AttributeError "is_static").
Proof.
  intros [Hno ->]%init_ok_inv Hc Hax Hcls.
  assert (HT : DMDimensions.assign_axes axis DMDimensions.empty_axes dims !! "T"
               = Some (Some c)).
  { change "T" with (DMAxis.name DMAxis.T). rewrite <- Hax.
    apply assign_axes_lookup_unique; [done | |].
    - rewrite Hax. apply spatiotemporal_cases. split; discriminate.
    - apply list_elem_of_lookup_1 in Hc as [j Hj].
      intros c' [i Hi]%list_elem_of_lookup_1 Hax'.
      destruct (decide (i = j)) as [-> | Hne]; [congruence |].
      destruct Hno.
      assert (Hother : axis c ≠ DMAxis.OTHER) by (rewrite Hax; discriminate).
      destruct (decide (i < j)).
      + exists i, j, c', c. split; [done |].
        split; [by apply lookup_app_l_Some |].
        split; [by apply lookup_app_l_Some |]. split; congruence.
      + exists j, i, c, c'. split; [lia |].
        split; [by apply lookup_app_l_Some |].
        split; [by apply lookup_app_l_Some |]. split; congruence. }
  set (d := DMDimensions.mk dims scalar_coords _ _).
  assert (HTd : DMDimensions.T d = Ok (Some c))
    by (unfold DMDimensions.T, getitem, d; cbn [DMDimensions.axes];
        by rewrite HT).
  assert (Hs : is_static d = Raise (AttributeError "is_static"))
    by (unfold is_static; rewrite HTd; by destruct c).
  split; [done |]. split; [done |].
  unfold replace_date_range. by rewrite Hs.
Qed.

Lemma is_static_of_other_class_witness :
  ∃ d,
    DMDimensions.init axis [generic_time; lat] [] = Ok d
    ∧ DMDimensions.T d = Ok (Some generic_time)
    ∧ is_static d = Raise (AttributeError "is_static")
    ∧ replace_date_range d None = Raise (AttributeError "is_static").
Proof.
  eexists. split; [reflexivity |].
  eapply (is_static_of_other_class [generic_time; lat] []).
  - reflexivity.
  - left.
  - reflexivity.
  - discriminate.
Defined.

(** ** Classes with a fixed axis *)

Lemma class_axis_axis (c : coordinate) (a : DMAxis.t) :
  class_axis (coordinate_class c) = Some a →
  axis c = a ∧ a ≠ DMAxis.OTHER.
Proof. destruct c; simpl; intros [= <-]; done. Qed.

(** X13: the axis of a longitude, latitude, vertical, parametric vertical,
    scalar vertical, time or bounds dimension coordinate is fixed by its
    class, whatever its fields hold; so an aggregate never holds two
    coordinates of classes with the same fixed axis among its dims and
    scalar coordinates: construction raises the duplicate-axis error. *)
Theorem one_coordinate_per_class_axis (dims scalar_coords : list coordinate)
    (i j : nat) (c1 c2 : coordinate) (a : DMAxis.t) :
  i < j →
  (dims ++ scalar_coords) !! i = Some c1 →
  (dims ++ scalar_coords) !! j = Some c2 →
  class_axis (coordinate_class c1) = Some a →
  class_axis (coordinate_class c2) = Some a →
  axis c1 = a ∧ axis c2 = a
  ∧ ∃ c prev,
      DMDimensions.init axis dims scalar_coords
      = Raise (ValueError (Duplicate_definition (DMAxis.name (axis c)) c prev)).
Proof.
  intros Hij H1 H2 [Ha1 Ho]%class_axis_axis [Ha2 _]%class_axis_axis.
  split; [done |]. split; [done |].
  assert (Hdup : duplicate_axis axis (dims ++ scalar_coords)).
  { exists i, j, c1, c2. repeat split; congruence. }
  apply check_duplicates_raise in Hdup as (? & ? & c & prev & Hr & _).
  exists c, prev.
  unfold DMDimensions.init, DMDimensions.__post_init__.
  cbn [DMDimensions.dims DMDimensions.scalar_coords]. by rewrite Hr.
Qed.

Lemma one_coordinate_per_class_axis_witness :
  axis (sigma None) = DMAxis.Z ∧ axis plev500 = DMAxis.Z
  ∧ ∃ c prev,
      DMDimensions.init axis [time_1980_1990; sigma None; lat] [plev500]
      = Raise (ValueError (Duplicate_definition (DMAxis.name (axis c)) c prev)).
Proof.
  apply (one_coordinate_per_class_axis [time_1980_1990; sigma None; lat]
           [plev500] 1 3 (sigma None) plev500 DMAxis.Z);
    [lia | reflexivity..].
Defined.

(** ** More on the scalar coordinate factory *)

Lemma mapM_raise_inv {E R S : Type} (f : R → result E S) (l : list R) (e : E) :
  mapM f l = Raise e → ∃ x, x ∈ l ∧ f x = Raise e.
Proof.
  induction l as [| x l IH]; simpl; [discriminate |].
  destruct (f x) as [y | e'] eqn:Hx; simpl.
  - destruct (mapM f l) as [ys | e'']; simpl; [discriminate |].
    intros [= <-]. destruct IH as (x' & Hin & Hx'); [done |].
    exists x'. split; [by right | done].
  - intros [= <-]. exists x. split; [left | done].
Qed.

(** [asdict] fails only by running out of stack, or on a reference that
    the heap does not hold. *)
Lemma asdict_inner_raise (fuel : nat) (h : heap) (v : pyval) (e : exn loc) :
  asdict_inner fuel h v = Raise e →
  e = RecursionError ∨ e = InvalidReference.
Proof.
  revert v e. induction fuel as [| fuel IH]; intros v e; simpl.
  - intros [= <-]. by left.
  - assert (Hitem : ∀ kvs e',
              mapM (λ kv : string * pyval,
                      asdict_inner fuel h kv.2 ≫= λ w, Ok (kv.1, w)) kvs
              = Raise e' → e' = RecursionError ∨ e' = InvalidReference).
    { intros kvs e' (kv & _ & Hkv)%mapM_raise_inv.
      destruct (asdict_inner fuel h kv.2) as [w | e''] eqn:Hw;
        simpl in Hkv; [discriminate |].
      injection Hkv as <-. by eapply IH. }
    destruct v; try discriminate.
    + unfold deref. destruct (h !! l) as [o |]; simpl;
        [| intros [= <-]; by right].
      destruct (mapM _ (object_fields o)) as [kvs | e'] eqn:Hm; simpl;
        [discriminate |].
      intros [= <-]. by eapply Hitem.
    + destruct (mapM (asdict_inner fuel h) vs) as [ws | e'] eqn:Hm; simpl;
        [discriminate |].
      intros [= <-]. apply mapM_raise_inv in Hm as (x & _ & Hx).
      by eapply IH.
    + destruct (mapM _ kvs) as [kws | e'] eqn:Hm; simpl; [discriminate |].
      intros [= <-]. by eapply Hitem.
Qed.

Lemma known_keywords_raise (names : list string)
    (kwargs : list (string * pyval)) (e : exn loc) :
  known_keywords names kwargs = Raise e → ∃ what, e = TypeError what.
Proof.
  unfold known_keywords. destruct (filter _ kwargs); [discriminate |].
  intros [= <-]. by eexists.
Qed.

Lemma number_keyword_raise (key : string) (kwargs : list (string * pyval))
    (e : exn loc) :
  number_keyword key kwargs = Raise e → ∃ what, e = TypeError what.
Proof.
  unfold number_keyword. destruct (keyword key kwargs) as [[] |];
    try discriminate; intros [= <-]; by eexists.
Qed.

Lemma str_keyword_raise (key : string) (default : option string)
    (kwargs : list (string * pyval)) (e : exn loc) :
  str_keyword key default kwargs = Raise e → ∃ what, e = TypeError what.
Proof.
  unfold str_keyword. destruct (keyword key kwargs) as [[] |], default;
    try discriminate; intros [= <-]; by eexists.
Qed.

Lemma axis_keyword_raise (key : string) (default : DMAxis.t)
    (kwargs : list (string * pyval)) (e : exn loc) :
  axis_keyword key default kwargs = Raise e → ∃ what, e = TypeError what.
Proof.
  unfold axis_keyword. destruct (keyword key kwargs) as [[] |];
    try discriminate; intros [= <-]; by eexists.
Qed.

(** The call of a scalar class fails with TypeError only. *)
Lemma construct_raise (cls : scalar_class) (kwargs : list (string * pyval))
    (e : exn loc) :
  construct cls kwargs = Raise e → ∃ what, e = TypeError what.
Proof.
  unfold construct.
  destruct cls;
    repeat match goal with
      | |- context [known_keywords ?n ?k] =>
          destruct (known_keywords n k) eqn:?; simpl;
          [| intros [= <-]; by eapply known_keywords_raise]
      | |- context [number_keyword ?n ?k] =>
          destruct (number_keyword n k) eqn:?; simpl;
          [| intros [= <-]; by eapply number_keyword_raise]
      | |- context [str_keyword ?n ?d ?k] =>
          destruct (str_keyword n d k) eqn:?; simpl;
          [| intros [= <-]; by eapply str_keyword_raise]
      | |- context [axis_keyword ?n ?d ?k] =>
          destruct (axis_keyword n d k) eqn:?; simpl;
          [| intros [= <-]; by eapply axis_keyword_raise]
      end;
    discriminate.
Qed.

Lemma issubclass_scalar_bases (cls : scalar_class) (c : coordinate) :
  issubclass (class_of_scalar cls) (coordinate_class c)
  = bool_decide (coordinate_class c ∈ scalar_bases cls).
Proof. by destruct cls, c. Qed.

(** X14: on a coordinate object, the factory of a scalar class raises its
    ValueError exactly when the class of the coordinate is not the scalar
    class itself or its coordinate base: DMScalarCoordinate takes a
    DMCoordinate or a DMScalarCoordinate, DMScalarVerticalCoordinate a
    DMVerticalCoordinate or a DMScalarVerticalCoordinate, and no class takes
    a longitude, latitude, parametric vertical, time or bounds dimension
    coordinate.  The factory raises no other ValueError. *)
Theorem scalar_from_coordinate_type_check (cls : scalar_class) (fuel : nat)
    (h : heap) (coord : loc) (c : coordinate) (value : option number) :
  h !! coord = Some (OCoordinate c) →
  (DMScalarCoordinateMixin_from_coordinate cls fuel h coord value
   = Raise (ValueError (Different_type (class_of_scalar cls) coord))
   ↔ coordinate_class c ∉ scalar_bases cls)
  ∧ ∀ m, DMScalarCoordinateMixin_from_coordinate cls fuel h coord value
         = Raise (ValueError m) →
         m = Different_type (class_of_scalar cls) coord.
Proof.
  intros Hc.
  unfold DMScalarCoordinateMixin_from_coordinate, deref. rewrite Hc.
  cbn [mbind result_bind object_class].
  rewrite issubclass_scalar_bases.
  assert (Hrest : ∀ m,
            asdict fuel h coord
            ≫= (λ kwargs,
                  construct cls (dict_set "value" (of_option PNum value) kwargs)
                  ≫= λ new, Ok (<[fresh (dom h) := new]> h, fresh (dom h)))
            ≠ Raise (ValueError m)).
  { intros m. unfold asdict.
    destruct (asdict_inner fuel h (PRef coord)) as [v | e] eqn:Hv; simpl.
    - destruct v; simpl; try discriminate.
      destruct (construct cls _) as [new | e] eqn:Hn; simpl; [discriminate |].
      apply construct_raise in Hn as [what ->]. discriminate.
    - apply asdict_inner_raise in Hv as [-> | ->]; discriminate. }
  case_bool_decide as Hbase; simpl.
  - split.
    + split; [intros Hr; by apply Hrest in Hr | done].
    + intros m Hr. by apply Hrest in Hr.
  - split; [done |]. by intros m [= <-].
Qed.

Lemma scalar_from_coordinate_type_check_witness :
  DMScalarCoordinateMixin_from_coordinate DMScalarVerticalCoordinate 100
    heap_levels 3%positive (Some (PyInt 0))
  = Raise (ValueError (Different_type DMScalarVerticalCoordinate_class 3%positive))
  ∧ DMScalarCoordinateMixin_from_coordinate DMScalarCoordinate 100
      heap_levels 1%positive (Some (PyInt 500))
    = Raise (ValueError (Different_type DMScalarCoordinate_class 1%positive)).
Proof.
  split.
  - apply (proj1 (scalar_from_coordinate_type_check DMScalarVerticalCoordinate
                    100 heap_levels 3%positive lon (Some (PyInt 0)) eq_refl)).
    simpl. rewrite !elem_of_cons, elem_of_nil.
    intros [? | [? | []]]; discriminate.
  - apply (proj1 (scalar_from_coordinate_type_check DMScalarCoordinate
                    100 heap_levels 1%positive _ (Some (PyInt 500)) eq_refl)).
    simpl. rewrite !elem_of_cons, elem_of_nil.
    intros [? | [? | []]]; discriminate.
Defined.

(** X15: on a coordinate of a class that the scalar class takes and whose
    [bounds] is [None], with room for two nested calls, the factory returns a
    new object of the scalar class whose fields are [value], holding the
    value given, followed by the fields of the coordinate other than
    [value], with their values; the heap is extended by this object at a
    reference that was free, and otherwise unchanged. *)
Theorem scalar_from_coordinate_copies (cls : scalar_class) (fuel : nat)
    (h : heap) (coord : loc) (c : coordinate) (v : option number) :
  h !! coord = Some (OCoordinate c) →
  coordinate_class c ∈ scalar_bases cls → bounds c = PNone →
  ∃ new,
    DMScalarCoordinateMixin_from_coordinate cls (S (S fuel)) h coord v
    = Ok (<[fresh (dom h) := OCoordinate new]> h, fresh (dom h))
    ∧ h !! fresh (dom h) = None
    ∧ coordinate_class new = class_of_scalar cls
    ∧ coordinate_fields new
      = ("value", of_option PNum v)
        :: filter (λ kv, kv.1 ≠ "value") (coordinate_fields c)
    ∧ axis new = axis c.
Proof.
  intros Hc Hbase Hb.
  unfold DMScalarCoordinateMixin_from_coordinate, deref. rewrite Hc.
  cbn [mbind result_bind object_class].
  rewrite issubclass_scalar_bases, bool_decide_eq_true_2 by done.
  cbn [negb]. unfold asdict. rewrite (asdict_inner_ref _ _ _ _ Hc).
  destruct cls, c as [[] | [] | [] | [] | [] | [] | [] | [] | []];
    simpl in Hbase;
    try (by repeat (apply elem_of_cons in Hbase as [Hbase | Hbase];
                    [discriminate |]); apply elem_of_nil in Hbase);
    simpl in Hb; subst;
    repeat match goal with o : option _ |- _ => destruct o end;
    (eexists; split; [reflexivity |]; split; [apply fresh_lookup |];
     by repeat split).
Qed.

Lemma scalar_from_coordinate_copies_witness :
  ∃ new,
    DMScalarCoordinateMixin_from_coordinate DMScalarVerticalCoordinate 2
      heap_levels 1%positive (Some (PyInt 500))
    = Ok (<[fresh (dom heap_levels) := OCoordinate new]> heap_levels,
          fresh (dom heap_levels))
    ∧ new = plev500.
Proof.
  edestruct (scalar_from_coordinate_copies DMScalarVerticalCoordinate 0
               heap_levels 1%positive _ (Some (PyInt 500)) eq_refl)
    as (new & Hok & _).
  - simpl. right. left.
  - reflexivity.
  - exists new. split; [exact Hok |].
    vm_compute in Hok. injection Hok as Hok. by rewrite <- Hok.
Defined.

(** ** More on equality *)

Lemma py_eq_atom (distinct_eq : pyval → pyval → bool) (v w : pyval) :
  is_atom v = true → (∀ n, v ≠ PNum n) →
  py_eq distinct_eq v w = bool_decide (v = w).
Proof.
  intros Hv Hn. unfold py_eq.
  destruct v; try discriminate; try (by destruct (Hn n));
    destruct w; simpl; repeat case_bool_decide; done.
Qed.

Lemma tuple_eq_atoms (distinct_eq : pyval → pyval → bool) (vs ws : list pyval) :
  Forall (λ v, is_atom v = true ∧ ∀ n, v ≠ PNum n) vs →
  tuple_eq distinct_eq vs ws = true ↔ vs = ws.
Proof.
  intros Hvs. revert ws.
  induction Hvs as [| v vs [Hv Hn] _ IH]; intros [| w ws]; simpl; try done.
  rewrite andb_true_iff, IH, (py_eq_atom _ _ _ Hv Hn), bool_decide_eq_true.
  split; [intros [-> ->]; done | intros [= -> ->]; done].
Qed.

Lemma of_option_atom {V : Type} (f : V → pyval) (o : option V) :
  (∀ v, is_atom (f v) = true ∧ ∀ n, f v ≠ PNum n) →
  is_atom (of_option f o) = true ∧ ∀ n, of_option f o ≠ PNum n.
Proof. intros Hf. destruct o; [apply Hf | done]. Qed.

Lemma of_option_inj {V : Type} (f : V → pyval) (o o' : option V) :
  (∀ v v', f v = f v' → v = v') → (∀ v, f v ≠ PNone) →
  of_option f o = of_option f o' → o = o'.
Proof.
  intros Hinj Hnone. destruct o, o'; simpl; intros H; try done.
  - f_equal. by apply Hinj.
  - by apply Hnone in H.
  - symmetry in H. by apply Hnone in H.
Qed.

(** X16: on two coordinates without [value] whose [bounds] are [None], [==]
    holds exactly when they are the same up to [formula_terms]: the same
    class, and the same value in every other field. *)
Theorem coordinate_eq_structural (distinct_eq : pyval → pyval → bool)
    (a b : coordinate) :
  is_scalar a = false → bounds a = PNone → bounds b = PNone →
  coordinate_eq distinct_eq a b = true
  ↔ forget_formula_terms a = forget_formula_terms b.
Proof.
  intros Hsc Ha Hb. unfold coordinate_eq.
  rewrite andb_true_iff, bool_decide_eq_true.
  destruct a as [[] | [] | [] | [] | [] | [] | [] | [] | []];
    try discriminate Hsc; simpl in Ha; subst;
    destruct b as [[] | [] | [] | [] | [] | [] | [] | [] | []];
    simpl in Hb; subst;
    try (split; [intros [[=] _] | intros [=]]; fail);
    (rewrite tuple_eq_atoms
       by (simpl; repeat constructor; try done;
           apply of_option_atom; by intros ?));
    simpl;
    (split;
     [ intros [_ H]; injection H as H; intros; subst;
       repeat match goal with
         | H : of_option _ _ = of_option _ _ |- _ =>
             apply of_option_inj in H; [subst | congruence | done]
         end; done
     | intros [=]; subst; done ]).
Qed.

Lemma coordinate_eq_structural_witness :
  coordinate_eq (λ _ _, false) (sigma (Some "sigma: lev")) (sigma None) = true
  ∧ coordinate_eq (λ _ _, true) lat rlat = false.
Proof.
  split.
  - by apply (coordinate_eq_structural (λ _ _, false)
                (sigma (Some "sigma: lev")) (sigma None)).
  - apply not_true_is_false.
    rewrite (coordinate_eq_structural (λ _ _, true) lat rlat) by done.
    discriminate.
Defined.

(** X17: once [bounds] holds a reference, a coordinate is unequal to every
    coordinate whose [bounds] is [None], an otherwise identical one
    included; the bounds dimension, for which [bounds] is no field, is the
    exception. *)
Theorem coordinate_eq_after_link (distinct_eq : pyval → pyval → bool)
    (a b : coordinate) (r : loc) :
  coordinate_class a ≠ DMBoundsDimension_class →
  bounds a = PRef r → bounds b = PNone →
  coordinate_eq distinct_eq a b = false.
Proof.
  intros Hcls Ha Hb. unfold coordinate_eq.
  destruct a as [[] | [] | [] | [] | [] | [] | [] | [] | []];
    try (by destruct Hcls); simpl in Ha; subst;
    destruct b as [[] | [] | [] | [] | [] | [] | [] | [] | []];
    simpl in Hb; subst; try done;
    simpl; unfold py_eq at -1; simpl;
    by rewrite ?andb_false_r, ?andb_false_l.
Qed.

Lemma coordinate_eq_after_link_witness :
  coordinate_eq (λ _ _, true) (set_bounds latitude (PRef 3%positive)) latitude
  = false.
Proof.
  by apply (coordinate_eq_after_link (λ _ _, true)
              (set_bounds latitude (PRef 3%positive)) latitude 3%positive).
Defined.
